(** * Adafruit_VEML6070 (A9 port): a shallow embedding of the driver

    The driver of [Adafruit_VEML6070.h] / [Adafruit_VEML6070.cpp] talks to
    a VEML6070 UV sensor through the I2C calls of the A9 SDK.  The class
    keeps a one-byte shadow of the sensor's command register and every
    method is a short sequence of calls into the host ([I2C_Init],
    [I2C_Receive], [I2C_Transmit], [OS_Sleep], [Trace]).

    The embedding keeps that shape: the object is a record, a method is a
    computation in a small state monad over the object and the log of
    host calls made so far, and the host is a parameter that answers each
    bus transaction. *)

From Stdlib Require Import ZArith List Bool Lia String.
Import ListNotations.
Local Open Scope Z_scope.

(** ** Machine integers *)

(** [uint8_t] and [uint16_t] values are integers reduced modulo their
    width; a conversion to the type is the reduction. *)
Definition uint8 (z : Z) : Z := z mod 256.
Definition uint16 (z : Z) : Z := z mod 65536.

(** ** The SDK types the driver uses ([api_hal_i2c.h], not part of the
       repository) *)

(** The bus identifier is an enumeration of the SDK; the driver only
    stores it and hands it back, so its numeric value is all we keep. *)
Definition I2C_ID_t : Type := Z.

(** Modelled from the spec: [I2C_FREQ_t] is declared in api_hal_i2c.h;
    the driver names one value, the nominal 100 kHz clock. *)
Inductive I2C_FREQ_t : Type :=
| I2C_FREQ_100K
| I2C_FREQ_400K.

(** [I2C_Config_t] has the single field [freq].  A field that was never
    assigned is [None]. *)
Record I2C_Config_t : Type := mkConfig { freq : option I2C_FREQ_t }.

(** Modelled from the spec: [I2C_Error_t] is declared in api_hal_i2c.h;
    the driver compares against [I2C_ERROR_NONE] and prints any other
    code, so the other codes are kept as their number. *)
Inductive I2C_Error_t : Type :=
| I2C_ERROR_NONE
| I2C_ERROR_CODE (code : Z).

Definition is_error (e : I2C_Error_t) : bool :=
  match e with
  | I2C_ERROR_NONE => false
  | I2C_ERROR_CODE _ => true
  end.

(** The SDK's default timeout, passed through unchanged. *)
Inductive I2C_timeout : Type := I2C_DEFAULT_TIME_OUT.

(** ** Adafruit_VEML6070.h *)

Definition VEML6070_ADDR_H : Z := 0x39.
Definition VEML6070_ADDR_L : Z := 0x38.
Definition VEML6070_ADDR_ARA : Z := 0x0C.

Inductive veml6070_integrationtime_t : Type :=
| VEML6070_HALF_T
| VEML6070_1_T
| VEML6070_2_T
| VEML6070_4_T.

(** The enumerators are numbered from zero in declaration order. *)
Definition itime_code (t : veml6070_integrationtime_t) : Z :=
  match t with
  | VEML6070_HALF_T => 0
  | VEML6070_1_T => 1
  | VEML6070_2_T => 2
  | VEML6070_4_T => 3
  end.

(** *** The command register

    [commandRegister] is a union of the byte [reg] with a struct of
    bit-fields [SD:1], an unnamed [:1], [IT:2], [ACK_THD:1], [ACK:1].
    The compiler of the target allocates bit-fields from the least
    significant bit, which is also the sensor's register map: SD is bit
    0, the unnamed field bit 1, IT bits 2-3, ACK_THD bit 4, ACK bit 5.
    Bits 6 and 7 belong to no field.  The union is kept as its byte; a
    field is a position and a width in it. *)
Module CommandRegister.

Definition get_bits (reg pos width : Z) : Z :=
  Z.land (Z.shiftr reg pos) (Z.ones width).

(** Assigning to a bit-field keeps the low [width] bits of the value
    and leaves every other bit of the byte alone. *)
Definition set_bits (reg pos width v : Z) : Z :=
  Z.lor (Z.ldiff reg (Z.shiftl (Z.ones width) pos))
        (Z.shiftl (Z.land v (Z.ones width)) pos).

Definition SD (reg : Z) : Z := get_bits reg 0 1.
Definition reserved (reg : Z) : Z := get_bits reg 1 1.
Definition IT (reg : Z) : Z := get_bits reg 2 2.
Definition ACK_THD (reg : Z) : Z := get_bits reg 4 1.
Definition ACK (reg : Z) : Z := get_bits reg 5 1.

Definition set_SD (reg v : Z) : Z := set_bits reg 0 1 v.
Definition set_IT (reg v : Z) : Z := set_bits reg 2 2 v.
Definition set_ACK_THD (reg v : Z) : Z := set_bits reg 4 1 v.
Definition set_ACK (reg v : Z) : Z := set_bits reg 5 1 v.

End CommandRegister.

(** *** The object *)

Record Adafruit_VEML6070 : Type := mkDriver {
  _i2c : option I2C_ID_t;          (* unassigned until begin *)
  _i2cConfig : I2C_Config_t;
  _commandRegister : Z             (* the union, as its byte reg *)
}.

(** ** The host *)

(** What one [I2C_Receive] of a single byte did: the code it returned
    and the byte it stored through the buffer pointer, if it stored one. *)
Record RxResponse : Type := mkRx {
  rx_error : I2C_Error_t;
  rx_data : option Z
}.

(** The calls into the host, with their arguments and their answers. *)
Inductive Event : Type :=
| EvI2C_Init (i2c : option I2C_ID_t) (config : I2C_Config_t)
| EvI2C_Receive (i2c : option I2C_ID_t) (addr : Z) (length : Z)
                (timeout : I2C_timeout) (answer : RxResponse)
| EvI2C_Transmit (i2c : option I2C_ID_t) (addr : Z) (data : list Z)
                 (timeout : I2C_timeout) (answer : I2C_Error_t)
| EvOS_Sleep (ms : Z)
| EvTrace (level : Z) (fmt : string) (error : I2C_Error_t).

(** The bus is outside the program.  A host answers a transaction from
    everything that happened before it and from the call's arguments. *)
Record Host : Type := mkHost {
  host_receive : list Event -> option I2C_ID_t -> Z -> RxResponse;
  host_transmit : list Event -> option I2C_ID_t -> Z -> list Z -> I2C_Error_t
}.

(** ** The monad of methods *)

Record World : Type := mkWorld {
  self : Adafruit_VEML6070;
  log : list Event
}.

(** A method maps the world to a result and a new world; [None] is a
    loop that ran out of fuel. *)
Definition M (A : Type) : Type := World -> option (A * World).

Definition ret {A : Type} (a : A) : M A := fun w => Some (a, w).

Definition bind {A B : Type} (m : M A) (k : A -> M B) : M B :=
  fun w => match m w with
           | Some (a, w') => k a w'
           | None => None
           end.

Declare Scope driver_scope.
Delimit Scope driver_scope with driver.
Notation "x <- m ;; k" := (bind m (fun x => k))
  (at level 61, m at next level, right associativity) : driver_scope.
Notation "m ;; k" := (bind m (fun _ => k))
  (at level 61, right associativity) : driver_scope.
Local Open Scope driver_scope.

Definition get_self : M Adafruit_VEML6070 := fun w => Some (self w, w).

Definition modify_self (f : Adafruit_VEML6070 -> Adafruit_VEML6070) : M unit :=
  fun w => Some (tt, mkWorld (f (self w)) (log w)).

Definition emit (e : Event) : M unit :=
  fun w => Some (tt, mkWorld (self w) (log w ++ [e])).

Definition out_of_fuel {A : Type} : M A := fun _ => None.

Definition set_commandRegister (f : Z -> Z) : M unit :=
  modify_self (fun d => mkDriver (_i2c d) (_i2cConfig d) (f (_commandRegister d))).

(** Every counter of the driver is a [uint8_t] that moves one step at a
    time towards its bound, so no loop makes more than 256 tests. *)
Definition loop_fuel : nat := 257.

Section Driver.

Variable host : Host.

(** *** Calls into the host *)

(** The one-byte buffer after a receive: the stored byte, or what the
    buffer held before when the host stored nothing. *)
Definition buffer_after (buf : Z) (r : RxResponse) : Z :=
  match rx_data r with
  | Some b => uint8 b
  | None => buf
  end.

Definition I2C_Init (i2c : option I2C_ID_t) (config : I2C_Config_t) : M unit :=
  emit (EvI2C_Init i2c config).

(** [I2C_Receive(i2c, addr, &buf, 1, timeout)]: returns the error code
    and the content of the one-byte buffer after the call. *)
Definition I2C_Receive (i2c : option I2C_ID_t) (addr : Z) (buf : Z)
           (timeout : I2C_timeout) : M (I2C_Error_t * Z) :=
  fun w =>
    let r := host_receive host (log w) i2c addr in
    let buf' := buffer_after buf r in
    Some ((rx_error r, buf'),
          mkWorld (self w) (log w ++ [EvI2C_Receive i2c addr 1 timeout r])).

(** [I2C_Transmit(i2c, addr, &byte, 1, timeout)] *)
Definition I2C_Transmit (i2c : option I2C_ID_t) (addr : Z) (byte : Z)
           (timeout : I2C_timeout) : M I2C_Error_t :=
  fun w =>
    let e := host_transmit host (log w) i2c addr [byte] in
    Some (e, mkWorld (self w) (log w ++ [EvI2C_Transmit i2c addr [byte] timeout e])).

Definition OS_Sleep (ms : Z) : M unit := emit (EvOS_Sleep ms).

Definition Trace (level : Z) (fmt : string) (error : I2C_Error_t) : M unit :=
  emit (EvTrace level fmt error).

(** *** Adafruit_VEML6070.cpp *)

(** The constructor assigns the register and nothing else. *)
Definition Adafruit_VEML6070_new : Adafruit_VEML6070 :=
  mkDriver None (mkConfig None) 0x02.

Definition writeCommand : M unit :=
  d <- get_self ;;
  error <- I2C_Transmit (_i2c d) VEML6070_ADDR_L (_commandRegister d)
                        I2C_DEFAULT_TIME_OUT ;;
  if is_error error
  then Trace 1 "Adafruit_VEML6070::writeCommand transmit error: 0X%02x" error
  else ret tt.

Definition clearAck : M bool :=
  d <- get_self ;;
  r <- I2C_Receive (_i2c d) VEML6070_ADDR_ARA 0 I2C_DEFAULT_TIME_OUT ;;
  let '(error, res) := r in
  (if is_error error
   then Trace 1 "Adafruit_VEML6070::clearAck recieve error: 0X%02x" error
   else ret tt) ;;
  ret (negb (res =? 0)).

Definition begin (i2c : I2C_ID_t) (itime : veml6070_integrationtime_t) : M unit :=
  modify_self (fun d => mkDriver (Some i2c) (_i2cConfig d) (_commandRegister d)) ;;
  modify_self (fun d => mkDriver (_i2c d) (mkConfig (Some I2C_FREQ_100K))
                                 (_commandRegister d)) ;;
  d <- get_self ;;
  I2C_Init (_i2c d) (_i2cConfig d) ;;
  set_commandRegister (fun reg => CommandRegister.set_IT reg (itime_code itime)) ;;
  clearAck ;;
  writeCommand.

Definition setInterrupt (state level : bool) : M unit :=
  set_commandRegister (fun reg => CommandRegister.set_ACK reg (Z.b2z state)) ;;
  set_commandRegister (fun reg => CommandRegister.set_ACK_THD reg (Z.b2z level)) ;;
  clearAck ;;
  writeCommand.

(** [for (uint8_t i = IT; i > 0; i--) { itCount *= 2; }] *)
Fixpoint waitForNext_scale (fuel : nat) (i itCount : Z) : option Z :=
  match fuel with
  | O => None
  | S fuel' =>
      if 0 <? i
      then waitForNext_scale fuel' (uint8 (i - 1)) (uint8 (itCount * 2))
      else Some itCount
  end.

(** [for (uint8_t i = 0; i < itCount; i++) { OS_Sleep(63); }] *)
Fixpoint waitForNext_sleep (fuel : nat) (i itCount : Z) : M unit :=
  match fuel with
  | O => out_of_fuel
  | S fuel' =>
      if i <? itCount
      then OS_Sleep 63 ;; waitForNext_sleep fuel' (uint8 (i + 1)) itCount
      else ret tt
  end.

Definition waitForNext : M unit :=
  d <- get_self ;;
  match waitForNext_scale loop_fuel (CommandRegister.IT (_commandRegister d)) 1 with
  | None => out_of_fuel
  | Some itCount => waitForNext_sleep loop_fuel 0 itCount
  end.

(** [return -1] in a function returning [uint16_t]. *)
Definition readUV_failure : Z := uint16 (-1).

Definition readUV : M Z :=
  waitForNext ;;
  d <- get_self ;;
  r1 <- I2C_Receive (_i2c d) VEML6070_ADDR_H 0 I2C_DEFAULT_TIME_OUT ;;
  let '(error, highByte) := r1 in
  if is_error error
  then Trace 1 "Adafruit_VEML6070::readUV recieve error: 0X%02x" error ;;
       ret readUV_failure
  else
    r2 <- I2C_Receive (_i2c d) VEML6070_ADDR_L 0 I2C_DEFAULT_TIME_OUT ;;
    let '(error, lowByte) := r2 in
    if is_error error
    then Trace 1 "Adafruit_VEML6070::readUV recieve error: 0X%02x" error ;;
         ret readUV_failure
    else ret (uint16 (Z.lor (Z.shiftl highByte 8) lowByte)).

Definition sleep (state : bool) : M unit :=
  set_commandRegister (fun reg => CommandRegister.set_SD reg (Z.b2z state)) ;;
  writeCommand.

End Driver.

(** ** Vocabulary for the statements *)

(** The bus transactions among the host calls. *)
Definition is_bus_transaction (e : Event) : bool :=
  match e with
  | EvI2C_Receive _ _ _ _ _ => true
  | EvI2C_Transmit _ _ _ _ _ => true
  | _ => false
  end.

(** How many times [waitForNext] sleeps for a register value. *)
Definition sleep_count (reg : Z) : nat :=
  Z.to_nat (2 ^ CommandRegister.IT reg).

(** The table of the data sheet that the comment in [waitForNext] quotes. *)
Definition multiplier (t : veml6070_integrationtime_t) : nat :=
  match t with
  | VEML6070_HALF_T => 1
  | VEML6070_1_T => 2
  | VEML6070_2_T => 4
  | VEML6070_4_T => 8
  end.

(** The four roles an address plays in the protocol, and the macro the
    source uses at the call that plays the role: [writeCommand] transmits
    to [VEML6070_ADDR_L], [readUV] receives from [VEML6070_ADDR_H] and
    then from [VEML6070_ADDR_L], [clearAck] receives from
    [VEML6070_ADDR_ARA]. *)
Inductive BusAddress : Type :=
| CommandWrite
| DataHigh
| DataLow
| AlertClear.

Definition bus_address (role : BusAddress) : Z :=
  match role with
  | CommandWrite => VEML6070_ADDR_L
  | DataHigh => VEML6070_ADDR_H
  | DataLow => VEML6070_ADDR_L
  | AlertClear => VEML6070_ADDR_ARA
  end.

(** A receive that succeeded and delivered [byte]; one that failed with
    [code] and delivered nothing. *)
Definition rx_ok (byte : Z) : RxResponse := mkRx I2C_ERROR_NONE (Some byte).
Definition rx_fail (code : Z) : RxResponse := mkRx (I2C_ERROR_CODE code) None.

(** A scripted host, as a test would inject it: fixed answers per
    address, whatever happened before. *)
Definition scripted_host (high low ara : RxResponse) (tx : I2C_Error_t) : Host :=
  mkHost
    (fun _ _ addr =>
       if addr =? VEML6070_ADDR_H then high
       else if addr =? VEML6070_ADDR_L then low
       else ara)
    (fun _ _ _ _ => tx).

(** The log once [readUV], entered in world [w], has finished waiting,
    the answer of the host to the receive from the high address made at
    that point, and its answer to the receive from the low address that
    follows a high receive. *)
Definition waited (w : World) : list Event :=
  log w ++ repeat (EvOS_Sleep 63) (sleep_count (_commandRegister (self w))).

Definition high_answer (host : Host) (w : World) : RxResponse :=
  host_receive host (waited w) (_i2c (self w)) VEML6070_ADDR_H.

Definition high_event (host : Host) (w : World) : Event :=
  EvI2C_Receive (_i2c (self w)) VEML6070_ADDR_H 1 I2C_DEFAULT_TIME_OUT
                (high_answer host w).

Definition low_answer (host : Host) (w : World) : RxResponse :=
  host_receive host (waited w ++ [high_event host w]) (_i2c (self w))
               VEML6070_ADDR_L.

Definition low_event (host : Host) (w : World) : Event :=
  EvI2C_Receive (_i2c (self w)) VEML6070_ADDR_L 1 I2C_DEFAULT_TIME_OUT
                (low_answer host w).

(** The answer of the host to the receive that [clearAck] makes in [w]. *)
Definition ara_answer (host : Host) (w : World) : RxResponse :=
  host_receive host (log w) (_i2c (self w)) VEML6070_ADDR_ARA.

Definition ara_event (host : Host) (w : World) : Event :=
  EvI2C_Receive (_i2c (self w)) VEML6070_ADDR_ARA 1 I2C_DEFAULT_TIME_OUT
                (ara_answer host w).

(** The answer of the host to the transmit that [writeCommand] makes in
    [w], and the transaction as logged. *)
Definition write_answer (host : Host) (w : World) : I2C_Error_t :=
  host_transmit host (log w) (_i2c (self w)) VEML6070_ADDR_L
                [_commandRegister (self w)].

Definition write_event (host : Host) (w : World) : Event :=
  EvI2C_Transmit (_i2c (self w)) VEML6070_ADDR_L [_commandRegister (self w)]
                 I2C_DEFAULT_TIME_OUT (write_answer host w).

(** An object on which [begin] has run with bus 1 and integration time
    1T, and a host whose data addresses both deliver 0xFF. *)
Definition started : World :=
  mkWorld (mkDriver (Some 1) (mkConfig (Some I2C_FREQ_100K)) 0x06) [].

Definition host_all_ones : Host :=
  scripted_host (rx_ok 0xFF) (rx_ok 0xFF) (rx_ok 0) I2C_ERROR_NONE.

(** A call of a method from outside, and a program of such calls. *)
Inductive Call : Type :=
| CallBegin (i2c : I2C_ID_t) (itime : veml6070_integrationtime_t)
| CallSetInterrupt (state level : bool)
| CallClearAck
| CallReadUV
| CallWaitForNext
| CallSleep (state : bool)
| CallWriteCommand.

Definition run_call (host : Host) (c : Call) : M unit :=
  match c with
  | CallBegin i2c itime => begin host i2c itime
  | CallSetInterrupt state level => setInterrupt host state level
  | CallClearAck => _ <- clearAck host ;; ret tt
  | CallReadUV => _ <- readUV host ;; ret tt
  | CallWaitForNext => waitForNext
  | CallSleep state => sleep host state
  | CallWriteCommand => writeCommand host
  end.

Fixpoint run_calls (host : Host) (cs : list Call) : M unit :=
  match cs with
  | [] => ret tt
  | c :: cs' => run_call host c ;; run_calls host cs'
  end.

(** A command byte put on the bus has the reserved bit set. *)
Definition transmits_reserved_set (e : Event) : Prop :=
  match e with
  | EvI2C_Transmit _ _ data _ _ =>
      Forall (fun byte => Z.testbit byte 1 = true) data
  | _ => True
  end.

(** Every transmit among the events carries exactly the byte [byte]. *)
Definition transmits_only (byte : Z) (e : Event) : Prop :=
  match e with
  | EvI2C_Transmit _ _ data _ _ => data = [byte]
  | _ => True
  end.

(** The data of the most recent transmit in a log, if there was one. *)
Fixpoint last_transmitted (evs : list Event) : option (list Z) :=
  match evs with
  | [] => None
  | e :: evs' =>
      match last_transmitted evs' with
      | Some data => Some data
      | None =>
          match e with
          | EvI2C_Transmit _ _ data _ _ => Some data
          | _ => None
          end
      end
  end.

(** Trace lines, and bus transactions the host answered with an error. *)
Definition is_trace (e : Event) : bool :=
  match e with
  | EvTrace _ _ _ => true
  | _ => false
  end.

Definition reports_error (e : Event) : bool :=
  match e with
  | EvI2C_Receive _ _ _ _ answer => is_error (rx_error answer)
  | EvI2C_Transmit _ _ _ _ answer => is_error answer
  | _ => false
  end.

Definition is_begin (c : Call) : bool :=
  match c with
  | CallBegin _ _ => true
  | _ => false
  end.

(** Every error answer has its trace line: as many of the one as of the
    other. *)
Definition balanced (evs : list Event) : Prop :=
  List.length (filter is_trace evs) = List.length (filter reports_error evs).

(** A receive that reported the error [code] after it had stored [byte]
    through the buffer pointer. *)
Definition rx_fail_storing (code byte : Z) : RxResponse :=
  mkRx (I2C_ERROR_CODE code) (Some byte).

Definition is_sleep (e : Event) : bool :=
  match e with
  | EvOS_Sleep _ => true
  | _ => false
  end.

(** * Properties *)

(** ** Bit-fields of the command register *)

Module CommandRegisterFacts.
Import CommandRegister.

Lemma testbit_get_bits (reg pos width i : Z) :
  0 <= pos -> 0 <= width -> 0 <= i ->
  Z.testbit (get_bits reg pos width) i
  = (i <? width) && Z.testbit reg (i + pos).
Proof.
  intros Hp Hw Hi. unfold get_bits.
  rewrite Z.land_spec, Z.shiftr_spec, Z.testbit_ones_nonneg by assumption.
  apply andb_comm.
Qed.

Lemma testbit_set_bits (reg pos width v i : Z) :
  0 <= pos -> 0 <= width -> 0 <= i ->
  Z.testbit (set_bits reg pos width v) i
  = if (pos <=? i) && (i <? pos + width)
    then Z.testbit v (i - pos)
    else Z.testbit reg i.
Proof.
  intros Hp Hw Hi. unfold set_bits.
  rewrite Z.lor_spec, Z.ldiff_spec, !Z.shiftl_spec, Z.land_spec by assumption.
  destruct (Z.leb_spec pos i) as [Hle | Hlt]; cbn [andb].
  - rewrite !Z.testbit_ones_nonneg by lia.
    replace (i - pos <? width) with (i <? pos + width)
      by (destruct (Z.ltb_spec i (pos + width)), (Z.ltb_spec (i - pos) width);
          lia || reflexivity).
    destruct (i <? pos + width); cbn.
    + rewrite andb_false_r, andb_true_r. reflexivity.
    + rewrite andb_true_r, andb_false_r, orb_false_r. reflexivity.
  - rewrite !(Z.testbit_neg_r _ (i - pos)) by lia.
    cbn. rewrite andb_true_r, orb_false_r. reflexivity.
Qed.

Lemma get_bits_range (reg pos width : Z) :
  0 <= width -> 0 <= get_bits reg pos width < 2 ^ width.
Proof.
  intros Hw. unfold get_bits. rewrite Z.land_ones by assumption.
  apply Z.mod_pos_bound. apply Z.pow_pos_nonneg; lia.
Qed.

(** Reading back the field just written gives the truncated value. *)
Lemma get_set_same (reg pos width v : Z) :
  0 <= pos -> 0 <= width ->
  get_bits (set_bits reg pos width v) pos width = v mod 2 ^ width.
Proof.
  intros Hp Hw. apply Z.bits_inj'. intros i Hi.
  rewrite testbit_get_bits, testbit_set_bits by lia.
  rewrite <- Z.land_ones, Z.land_spec, Z.testbit_ones_nonneg by lia.
  replace (i + pos - pos) with i by lia.
  destruct (Z.ltb_spec i width) as [Hlt | Hge]; cbn [andb].
  - replace (pos <=? i + pos) with true by (symmetry; apply Z.leb_le; lia).
    replace (i + pos <? pos + width) with true by (symmetry; apply Z.ltb_lt; lia).
    cbn. rewrite andb_true_r. reflexivity.
  - rewrite andb_false_r. reflexivity.
Qed.

(** Writing a field does not change a field that shares no bit with it. *)
Lemma get_set_other (reg pos width v pos' width' : Z) :
  0 <= pos -> 0 <= width -> 0 <= pos' -> 0 <= width' ->
  pos' + width' <= pos \/ pos + width <= pos' ->
  get_bits (set_bits reg pos width v) pos' width' = get_bits reg pos' width'.
Proof.
  intros Hp Hw Hp' Hw' Hdis. apply Z.bits_inj'. intros i Hi.
  rewrite !testbit_get_bits, testbit_set_bits by lia.
  destruct (Z.ltb_spec i width') as [Hlt | Hge]; cbn [andb]; [| reflexivity].
  replace ((pos <=? i + pos') && (i + pos' <? pos + width)) with false;
    [reflexivity |].
  symmetry. apply andb_false_iff.
  rewrite Z.leb_gt, Z.ltb_ge. lia.
Qed.

(** A field assignment keeps the byte a byte. *)
Lemma set_bits_uint8 (reg pos width v : Z) :
  0 <= pos -> 0 <= width -> pos + width <= 8 ->
  0 <= reg < 256 -> 0 <= set_bits reg pos width v < 256.
Proof.
  intros Hp Hw Hfit Hreg.
  assert (Hhigh : forall i, 8 <= i -> Z.testbit (set_bits reg pos width v) i = false).
  { intros i Hi. rewrite testbit_set_bits by lia.
    replace (i <? pos + width) with false by (symmetry; apply Z.ltb_ge; lia).
    rewrite andb_false_r.
    rewrite <- (Z.mod_small reg (2 ^ 8)) by (change (2 ^ 8) with 256; lia).
    apply Z.mod_pow2_bits_high. lia. }
  assert (Hnn : 0 <= set_bits reg pos width v).
  { unfold set_bits. apply Z.lor_nonneg. split.
    - apply Z.ldiff_nonneg. lia.
    - apply Z.shiftl_nonneg. apply Z.land_nonneg. right.
      rewrite Z.ones_equiv. pose proof (Z.pow_pos_nonneg 2 width). lia. }
  split; [assumption |].
  destruct (Z.eq_dec (set_bits reg pos width v) 0) as [-> | Hne]; [lia |].
  change 256 with (2 ^ 8).
  apply Z.log2_lt_pow2; [lia |].
  destruct (Z.lt_ge_cases (Z.log2 (set_bits reg pos width v)) 8) as [| Hbig];
    [assumption |].
  pose proof (Z.bit_log2 (set_bits reg pos width v) ltac:(lia)) as Hbit.
  rewrite Hhigh in Hbit by assumption. discriminate.
Qed.

End CommandRegisterFacts.

(** ** The integration wait *)

Lemma IT_cases (reg : Z) :
  CommandRegister.IT reg = 0 \/ CommandRegister.IT reg = 1 \/
  CommandRegister.IT reg = 2 \/ CommandRegister.IT reg = 3.
Proof.
  pose proof (CommandRegisterFacts.get_bits_range reg 2 2 ltac:(lia)) as H.
  unfold CommandRegister.IT. change (2 ^ 2) with 4 in H. lia.
Qed.

(** The first loop doubles [itCount] once per unit of [i], in [uint8_t]
    arithmetic, and needs one unit of fuel more than [i]. *)
Lemma waitForNext_scale_spec (n : nat) :
  forall (fuel : nat) (i itCount : Z),
    i = Z.of_nat n -> i <= 255 -> (n < fuel)%nat ->
    0 <= itCount < 256 ->
    waitForNext_scale fuel i itCount = Some (uint8 (itCount * 2 ^ i)).
Proof.
  induction n as [| n IH]; intros fuel i itCount Hi Hmax Hfuel Hc.
  - destruct fuel as [| fuel]; [lia |]. subst i. cbn.
    unfold uint8. rewrite Z.mod_small by lia. f_equal. lia.
  - destruct fuel as [| fuel]; [lia |].
    cbn [waitForNext_scale].
    replace (0 <? i) with true by (symmetry; apply Z.ltb_lt; lia).
    assert (Hpred : uint8 (i - 1) = Z.of_nat n)
      by (unfold uint8; rewrite Z.mod_small by lia; lia).
    rewrite (IH fuel (uint8 (i - 1)) (uint8 (itCount * 2))); try lia.
    + f_equal. rewrite Hpred. unfold uint8.
      rewrite Z.mul_mod_idemp_l by lia. f_equal.
      replace i with (Z.succ (Z.of_nat n)) by lia.
      rewrite Z.pow_succ_r by lia. ring.
    + unfold uint8. apply Z.mod_pos_bound. lia.
Qed.

(** The second loop sleeps once per value of [i] below [itCount]. *)
Lemma waitForNext_sleep_spec (n : nat) :
  forall (fuel : nat) (i itCount : Z) (w : World),
    0 <= i -> itCount - i = Z.of_nat n -> itCount <= 255 -> (n < fuel)%nat ->
    waitForNext_sleep fuel i itCount w
    = Some (tt, mkWorld (self w) (log w ++ repeat (EvOS_Sleep 63) n)).
Proof.
  induction n as [| n IH]; intros fuel i itCount w Hi Hn Hmax Hfuel.
  - destruct fuel as [| fuel]; [lia |]. cbn [waitForNext_sleep].
    replace (i <? itCount) with false by (symmetry; apply Z.ltb_ge; lia).
    cbn. rewrite app_nil_r. destruct w; reflexivity.
  - destruct fuel as [| fuel]; [lia |]. cbn [waitForNext_sleep].
    replace (i <? itCount) with true by (symmetry; apply Z.ltb_lt; lia).
    unfold bind, OS_Sleep, emit.
    rewrite (IH fuel (uint8 (i + 1)) itCount); cbn [self log repeat].
    + rewrite <- app_assoc. reflexivity.
    + unfold uint8. apply Z.mod_pos_bound. lia.
    + unfold uint8. rewrite Z.mod_small by lia. lia.
    + lia.
    + lia.
Qed.

(** [waitForNext] always returns; it leaves the object alone and sleeps
    [2 ^ IT] times, 63 ms each. *)
Lemma waitForNext_run (w : World) :
  waitForNext w
  = Some (tt, mkWorld (self w)
                      (log w ++ repeat (EvOS_Sleep 63)
                                       (sleep_count (_commandRegister (self w))))).
Proof.
  unfold waitForNext, bind, get_self, sleep_count.
  set (it := CommandRegister.IT (_commandRegister (self w))).
  assert (Hit : 0 <= it <= 3) by (pose proof (IT_cases (_commandRegister (self w))); lia).
  assert (Hpow : 1 <= 2 ^ it <= 8).
  { assert (it = 0 \/ it = 1 \/ it = 2 \/ it = 3) as [-> | [-> | [-> | ->]]] by lia;
      cbn; lia. }
  rewrite (waitForNext_scale_spec (Z.to_nat it)) by (unfold loop_fuel; lia).
  rewrite Z.mul_1_l. unfold uint8. rewrite Z.mod_small by lia.
  apply waitForNext_sleep_spec; unfold loop_fuel; lia.
Qed.

Lemma sleep_count_multiplier (reg : Z) (itime : veml6070_integrationtime_t) :
  CommandRegister.IT reg = itime_code itime ->
  sleep_count reg = multiplier itime.
Proof.
  intros H. unfold sleep_count. rewrite H. destruct itime; reflexivity.
Qed.

(** C4: for each integration time Half, One, Two, Four held in the IT
    field, [waitForNext] calls [OS_Sleep] exactly 1, 2, 4, 8 times, each
    time with the duration 63, makes no other host call and changes
    nothing in the object. *)
Theorem waitForNext_sleeps (w : World) (itime : veml6070_integrationtime_t) :
  CommandRegister.IT (_commandRegister (self w)) = itime_code itime ->
  waitForNext w
  = Some (tt, mkWorld (self w)
                      (log w ++ repeat (EvOS_Sleep 63) (multiplier itime))).
Proof.
  intros H. rewrite waitForNext_run, (sleep_count_multiplier _ itime H).
  reflexivity.
Qed.

Lemma waitForNext_sleeps_witness :
  waitForNext (mkWorld (mkDriver (Some 1) (mkConfig (Some I2C_FREQ_100K)) 0x0E) [])
  = Some (tt, mkWorld (mkDriver (Some 1) (mkConfig (Some I2C_FREQ_100K)) 0x0E)
                      (repeat (EvOS_Sleep 63) 8)).
Proof.
  apply (waitForNext_sleeps
           (mkWorld (mkDriver (Some 1) (mkConfig (Some I2C_FREQ_100K)) 0x0E) [])
           VEML6070_4_T).
  reflexivity.
Defined.

(** ** Reading a sample *)

Lemma is_error_true (e : I2C_Error_t) :
  is_error e = true <-> e <> I2C_ERROR_NONE.
Proof.
  destruct e; cbn; split; intros H; congruence.
Qed.

Lemma readUV_failure_value : readUV_failure = 0xFFFF.
Proof. reflexivity. Qed.

(** Two bytes placed side by side already fit sixteen bits. *)
Lemma combine_bytes (high low : Z) :
  0 <= high <= 255 -> 0 <= low <= 255 ->
  Z.lor (Z.shiftl high 8) low = 256 * high + low.
Proof.
  intros Hh Hl. rewrite Z.shiftl_mul_pow2 by lia.
  assert (Hdisjoint : Z.land (high * 2 ^ 8) low = 0).
  { apply Z.bits_inj'. intros i Hi. rewrite Z.land_spec, Z.bits_0.
    destruct (Z.lt_ge_cases i 8) as [Hlow | Hhigh].
    - rewrite Z.mul_pow2_bits_low by lia. reflexivity.
    - replace (Z.testbit low i) with false; [apply andb_false_r |].
      symmetry.
      rewrite <- (Z.mod_small low (2 ^ 8)) by (change (2 ^ 8) with 256; lia).
      apply Z.mod_pow2_bits_high. lia. }
  rewrite <- Z.lxor_lor, <- Z.add_nocarry_lxor by assumption.
  change (2 ^ 8) with 256. lia.
Qed.


Section ReadUV.

Variable host : Host.

(** What [readUV] does when both receives report success, whatever the
    buffers hold afterwards. *)
Lemma readUV_run_ok (w : World) :
  rx_error (high_answer host w) = I2C_ERROR_NONE ->
  rx_error (low_answer host w) = I2C_ERROR_NONE ->
  readUV host w
  = Some (uint16 (Z.lor (Z.shiftl (buffer_after 0 (high_answer host w)) 8)
                        (buffer_after 0 (low_answer host w))),
          mkWorld (self w) (waited w ++ [high_event host w; low_event host w])).
Proof.
  intros Hhigh Hlow.
  unfold readUV, bind. rewrite waitForNext_run.
  unfold get_self, I2C_Receive. cbn [self log].
  fold (waited w). fold (high_answer host w). fold (high_event host w).
  rewrite Hhigh. cbn [is_error self log].
  fold (low_answer host w). fold (low_event host w).
  rewrite Hlow. cbn [is_error]. unfold ret.
  rewrite <- app_assoc. reflexivity.
Qed.

(** What [readUV] returns when the high receive reports an error: the low
    address is not read at all. *)
Lemma readUV_run_high_failed (w : World) :
  rx_error (high_answer host w) <> I2C_ERROR_NONE ->
  exists trace_event,
    readUV host w
    = Some (readUV_failure,
            mkWorld (self w) (waited w ++ [high_event host w; trace_event]))
    /\ is_bus_transaction trace_event = false.
Proof.
  intros Hhigh. apply is_error_true in Hhigh.
  unfold readUV, bind. rewrite waitForNext_run.
  unfold get_self, I2C_Receive. cbn [self log].
  fold (waited w). fold (high_answer host w). fold (high_event host w).
  rewrite Hhigh. unfold Trace, emit, ret. cbn [self log].
  eexists. rewrite <- app_assoc. split; reflexivity.
Qed.

(** What it returns when the high receive succeeds and the low one
    reports an error. *)
Lemma readUV_run_low_failed (w : World) :
  rx_error (high_answer host w) = I2C_ERROR_NONE ->
  rx_error (low_answer host w) <> I2C_ERROR_NONE ->
  exists trace_event,
    readUV host w
    = Some (readUV_failure,
            mkWorld (self w)
                    (waited w ++ [high_event host w; low_event host w; trace_event]))
    /\ is_bus_transaction trace_event = false.
Proof.
  intros Hhigh Hlow. apply is_error_true in Hlow.
  unfold readUV, bind. rewrite waitForNext_run.
  unfold get_self, I2C_Receive. cbn [self log].
  fold (waited w). fold (high_answer host w). fold (high_event host w).
  rewrite Hhigh. cbn [is_error self log].
  fold (low_answer host w). fold (low_event host w).
  rewrite Hlow. unfold Trace, emit, ret. cbn [self log].
  eexists. rewrite <- !app_assoc. split; reflexivity.
Qed.

(** In every case [readUV] returns, leaves the object alone, and after
    the wait receives from the high address; it goes on to the low address
    exactly when the high receive succeeded, and it never transmits. *)
Lemma readUV_run (w : World) :
  exists v tr,
    readUV host w
    = Some (v, mkWorld (self w) (waited w ++ high_event host w :: tr))
    /\ filter is_bus_transaction tr
       = if is_error (rx_error (high_answer host w))
         then []
         else [low_event host w].
Proof.
  destruct (is_error (rx_error (high_answer host w))) eqn:Hhigh.
  - pose proof (proj1 (is_error_true _) Hhigh) as Hbad.
    destruct (readUV_run_high_failed w Hbad) as [t [Hrun Hquiet]].
    exists readUV_failure, [t].
    split; [exact Hrun |]. cbn. rewrite Hquiet. reflexivity.
  - assert (Hok : rx_error (high_answer host w) = I2C_ERROR_NONE)
      by (destruct (rx_error (high_answer host w)); [reflexivity | discriminate]).
    destruct (is_error (rx_error (low_answer host w))) eqn:Hlow.
    + apply is_error_true in Hlow.
      destruct (readUV_run_low_failed w Hok Hlow) as [t [Hrun Hquiet]].
      exists readUV_failure, [low_event host w; t].
      split; [exact Hrun |]. cbn. rewrite Hquiet. reflexivity.
    + assert (Hok' : rx_error (low_answer host w) = I2C_ERROR_NONE)
        by (destruct (rx_error (low_answer host w)); [reflexivity | discriminate]).
      eexists. exists [low_event host w].
      split; [exact (readUV_run_ok w Hok Hok') | reflexivity].
Qed.

End ReadUV.

(** C1: when the host answers both data receives with success and the
    bytes [high] and [low], each in [0,255], [readUV] first makes the
    integration wait, then receives from the high address, then from the
    low address, makes no other host call, and returns
    [(high << 8) | low]. *)
Theorem readUV_combines (host : Host) (w : World) (high low : Z) :
  0 <= high <= 255 -> 0 <= low <= 255 ->
  high_answer host w = rx_ok high ->
  low_answer host w = rx_ok low ->
  readUV host w
  = Some (Z.lor (Z.shiftl high 8) low,
          mkWorld (self w)
                  (log w
                   ++ repeat (EvOS_Sleep 63) (sleep_count (_commandRegister (self w)))
                   ++ [EvI2C_Receive (_i2c (self w)) VEML6070_ADDR_H 1
                                     I2C_DEFAULT_TIME_OUT (rx_ok high);
                       EvI2C_Receive (_i2c (self w)) VEML6070_ADDR_L 1
                                     I2C_DEFAULT_TIME_OUT (rx_ok low)])).
Proof.
  intros Hh Hl Hhigh Hlow.
  rewrite readUV_run_ok by (rewrite ?Hhigh, ?Hlow; reflexivity).
  unfold high_event, low_event, waited. rewrite Hhigh, Hlow.
  unfold buffer_after, rx_ok, uint8, uint16. cbn [rx_data].
  rewrite (Z.mod_small high), (Z.mod_small low) by lia.
  rewrite combine_bytes by lia.
  rewrite Z.mod_small by lia.
  rewrite <- app_assoc. reflexivity.
Qed.

Lemma readUV_combines_witness :
  readUV (scripted_host (rx_ok 0x01) (rx_ok 0x02) (rx_ok 0) I2C_ERROR_NONE) started
  = Some (0x0102,
          mkWorld (self started)
                  [EvOS_Sleep 63; EvOS_Sleep 63;
                   EvI2C_Receive (Some 1) VEML6070_ADDR_H 1
                                 I2C_DEFAULT_TIME_OUT (rx_ok 0x01);
                   EvI2C_Receive (Some 1) VEML6070_ADDR_L 1
                                 I2C_DEFAULT_TIME_OUT (rx_ok 0x02)]).
Proof.
  apply (readUV_combines
           (scripted_host (rx_ok 0x01) (rx_ok 0x02) (rx_ok 0) I2C_ERROR_NONE)
           started 0x01 0x02); [lia | lia | reflexivity | reflexivity].
Defined.

(** C2: when the receive from the high address or the receive from the
    low address reports an error, [readUV] returns the one failure value,
    0xFFFF, whatever bytes the buffers hold; the object is unchanged. *)
Theorem readUV_failed_read (host : Host) (w : World) :
  rx_error (high_answer host w) <> I2C_ERROR_NONE
  \/ rx_error (low_answer host w) <> I2C_ERROR_NONE ->
  exists w',
    readUV host w = Some (readUV_failure, w')
    /\ readUV_failure = 0xFFFF
    /\ self w' = self w.
Proof.
  intros Hfail.
  destruct (is_error (rx_error (high_answer host w))) eqn:Hhigh.
  - apply is_error_true in Hhigh.
    destruct (readUV_run_high_failed host w Hhigh) as [tr [Hrun _]].
    eexists. split; [exact Hrun |]. split; reflexivity.
  - assert (Hok : rx_error (high_answer host w) = I2C_ERROR_NONE)
      by (destruct (rx_error (high_answer host w)); [reflexivity | discriminate]).
    destruct Hfail as [Hbad | Hlow]; [contradiction |].
    destruct (readUV_run_low_failed host w Hok Hlow) as [tr [Hrun _]].
    eexists. split; [exact Hrun |]. split; reflexivity.
Qed.

Lemma readUV_failed_read_witness :
  exists w',
    readUV (scripted_host (rx_ok 0x12) (rx_fail 3) (rx_ok 0) I2C_ERROR_NONE) started
    = Some (readUV_failure, w')
    /\ readUV_failure = 0xFFFF
    /\ self w' = self started.
Proof.
  apply (readUV_failed_read
           (scripted_host (rx_ok 0x12) (rx_fail 3) (rx_ok 0) I2C_ERROR_NONE)
           started).
  right. cbn. discriminate.
Defined.

(** C3, as the spec has it, fails: with both receives successful and both
    bytes 0xFF, the reading [readUV] returns is the failure value. *)
Lemma readUV_failure_is_a_reading :
  rx_error (high_answer host_all_ones started) = I2C_ERROR_NONE
  /\ rx_error (low_answer host_all_ones started) = I2C_ERROR_NONE
  /\ option_map fst (readUV host_all_ones started) = Some readUV_failure.
Proof.
  repeat split.
Qed.

(** C3, amended: the failure value is 0xFFFF, and a read in which both
    receives succeed with bytes [high] and [low] returns it exactly when
    both bytes are 0xFF; every other successful reading differs from it. *)
Theorem readUV_failure_only_all_ones (host : Host) (w : World) (high low : Z) :
  0 <= high <= 255 -> 0 <= low <= 255 ->
  high_answer host w = rx_ok high ->
  low_answer host w = rx_ok low ->
  exists v w',
    readUV host w = Some (v, w')
    /\ (v = readUV_failure <-> high = 0xFF /\ low = 0xFF).
Proof.
  intros Hh Hl Hhigh Hlow.
  rewrite readUV_run_ok by (rewrite ?Hhigh, ?Hlow; reflexivity).
  do 2 eexists. split; [reflexivity |].
  rewrite Hhigh, Hlow.
  unfold buffer_after, rx_ok, uint8, uint16. cbn [rx_data].
  rewrite (Z.mod_small high), (Z.mod_small low) by lia.
  rewrite combine_bytes by lia.
  rewrite Z.mod_small by lia.
  rewrite readUV_failure_value. lia.
Qed.

Lemma readUV_failure_only_all_ones_witness :
  exists v w',
    readUV (scripted_host (rx_ok 0xFF) (rx_ok 0xFE) (rx_ok 0) I2C_ERROR_NONE) started
    = Some (v, w')
    /\ (v = readUV_failure <-> 0xFF = 0xFF /\ 0xFE = 0xFF).
Proof.
  apply (readUV_failure_only_all_ones
           (scripted_host (rx_ok 0xFF) (rx_ok 0xFE) (rx_ok 0) I2C_ERROR_NONE)
           started 0xFF 0xFE); [lia | lia | reflexivity | reflexivity].
Defined.


(** ** The two bus helpers *)

Section BusHelpers.

Variable host : Host.

(** [writeCommand] always returns: one transmit of the register byte to
    the low address, then at most a trace line; the object is unchanged. *)
Lemma writeCommand_run (w : World) :
  exists tr,
    writeCommand host w
    = Some (tt, mkWorld (self w) (log w ++ write_event host w :: tr))
    /\ filter is_bus_transaction tr = [].
Proof.
  unfold writeCommand, bind, get_self, I2C_Transmit. cbn [self log].
  fold (write_answer host w). fold (write_event host w).
  destruct (is_error (write_answer host w)).
  - unfold Trace, emit. cbn [self log].
    eexists. rewrite <- app_assoc. split; reflexivity.
  - unfold ret. exists []. split; reflexivity.
Qed.

(** [clearAck] always returns: one receive from the alert response
    address, then at most a trace line; the result is whether the buffer,
    zero before the call, is non-zero after it. *)
Lemma clearAck_run (w : World) :
  exists tr,
    clearAck host w
    = Some (negb (buffer_after 0 (ara_answer host w) =? 0),
            mkWorld (self w) (log w ++ ara_event host w :: tr))
    /\ filter is_bus_transaction tr = [].
Proof.
  unfold clearAck, bind, get_self, I2C_Receive. cbn [self log].
  fold (ara_answer host w). fold (ara_event host w).
  destruct (is_error (rx_error (ara_answer host w))).
  - unfold Trace, emit, ret. cbn [self log].
    eexists. rewrite <- app_assoc. split; reflexivity.
  - unfold ret. exists []. split; reflexivity.
Qed.

(** The tail shared by [begin] and [setInterrupt]: exactly two bus
    transactions, the alert-clear receive and then the transmit of the
    register byte. *)
Lemma clearAck_then_writeCommand (w : World) :
  exists evs answer,
    (clearAck host ;; writeCommand host) w
    = Some (tt, mkWorld (self w) (log w ++ evs))
    /\ filter is_bus_transaction evs
       = [ara_event host w;
          EvI2C_Transmit (_i2c (self w)) VEML6070_ADDR_L
                         [_commandRegister (self w)] I2C_DEFAULT_TIME_OUT answer].
Proof.
  destruct (clearAck_run w) as [tr1 [Hclear Hquiet1]].
  unfold bind. rewrite Hclear.
  match goal with
  | |- context [writeCommand host ?w1] =>
      destruct (writeCommand_run w1) as [tr2 [Hwrite Hquiet2]]; rewrite Hwrite
  end.
  cbn [self log].
  exists (ara_event host w :: tr1 ++ write_event host
            (mkWorld (self w) (log w ++ ara_event host w :: tr1)) :: tr2).
  eexists. split.
  - rewrite <- app_assoc. reflexivity.
  - cbn [filter is_bus_transaction ara_event]. rewrite filter_app.
    cbn [filter is_bus_transaction write_event self].
    rewrite Hquiet1, Hquiet2. reflexivity.
Qed.

End BusHelpers.

(** ** Construction and the address table *)

(** C5, as the spec has it, fails: the byte the constructor stores does
    not encode IT = 1T with the reserved bit clear. *)
Lemma constructed_register_not_as_specified :
  ~ (CommandRegister.SD (_commandRegister Adafruit_VEML6070_new) = 0
     /\ CommandRegister.IT (_commandRegister Adafruit_VEML6070_new)
        = itime_code VEML6070_1_T
     /\ CommandRegister.ACK_THD (_commandRegister Adafruit_VEML6070_new) = 0
     /\ CommandRegister.ACK (_commandRegister Adafruit_VEML6070_new) = 0
     /\ CommandRegister.reserved (_commandRegister Adafruit_VEML6070_new) = 0).
Proof.
  intros [_ [HIT _]]. discriminate HIT.
Qed.

(** C5, amended: right after construction the register is the byte 0x02,
    which encodes SD = 0, IT = 0 (the half integration time), ACK_THD = 0,
    ACK = 0, and has the reserved bit, bit 1, set. *)
Theorem constructed_register :
  _commandRegister Adafruit_VEML6070_new = 0x02
  /\ CommandRegister.SD (_commandRegister Adafruit_VEML6070_new) = 0
  /\ CommandRegister.IT (_commandRegister Adafruit_VEML6070_new)
     = itime_code VEML6070_HALF_T
  /\ CommandRegister.ACK_THD (_commandRegister Adafruit_VEML6070_new) = 0
  /\ CommandRegister.ACK (_commandRegister Adafruit_VEML6070_new) = 0
  /\ CommandRegister.reserved (_commandRegister Adafruit_VEML6070_new) = 1
  /\ Z.testbit (_commandRegister Adafruit_VEML6070_new) 1 = true.
Proof.
  repeat split.
Qed.

(** C6, as the spec has it, fails: the four roles do not have four
    different addresses, because the address [writeCommand] transmits to
    is the address [readUV] reads the low byte from. *)
Lemma bus_addresses_not_distinct :
  bus_address CommandWrite = bus_address DataLow
  /\ ~ NoDup (map bus_address [CommandWrite; DataHigh; DataLow; AlertClear]).
Proof.
  split; [reflexivity |].
  intros Hnodup. inversion Hnodup as [| a l Hnotin _]. subst.
  apply Hnotin. cbn. right. left. reflexivity.
Qed.

(** C6, amended: the four roles use three 7-bit addresses.  The command
    write and the low data byte share 0x38, the address [writeCommand]
    transmits to and [readUV] makes its second receive from; the high
    data byte is at 0x39, where [readUV] makes its first receive, and the
    alert clear at 0x0C, where [clearAck] receives; these two differ from
    each other and from the shared one. *)
Theorem bus_addresses (host : Host) (w : World) :
  (bus_address CommandWrite = 0x38 /\ bus_address DataLow = 0x38
   /\ bus_address DataHigh = 0x39 /\ bus_address AlertClear = 0x0C)
  /\ NoDup (map bus_address [CommandWrite; DataHigh; AlertClear])
  /\ NoDup (map bus_address [DataLow; DataHigh; AlertClear])
  /\ Forall (fun role => 0 <= bus_address role < 128)
            [CommandWrite; DataHigh; DataLow; AlertClear]
  /\ (exists answer tr,
         writeCommand host w
         = Some (tt, mkWorld (self w)
                       (log w
                        ++ EvI2C_Transmit (_i2c (self w)) (bus_address CommandWrite)
                             [_commandRegister (self w)] I2C_DEFAULT_TIME_OUT answer
                        :: tr))
         /\ filter is_bus_transaction tr = [])
  /\ (exists answer b tr,
         clearAck host w
         = Some (b, mkWorld (self w)
                      (log w
                       ++ EvI2C_Receive (_i2c (self w)) (bus_address AlertClear) 1
                            I2C_DEFAULT_TIME_OUT answer
                       :: tr))
         /\ filter is_bus_transaction tr = [])
  /\ (exists v high low tr,
         readUV host w
         = Some (v, mkWorld (self w)
                      (waited w
                       ++ EvI2C_Receive (_i2c (self w)) (bus_address DataHigh) 1
                            I2C_DEFAULT_TIME_OUT high
                       :: tr))
         /\ filter is_bus_transaction tr
            = if is_error (rx_error high)
              then []
              else [EvI2C_Receive (_i2c (self w)) (bus_address DataLow) 1
                                  I2C_DEFAULT_TIME_OUT low]).
Proof.
  split; [repeat split |].
  split; [repeat constructor; cbn; intuition discriminate |].
  split; [repeat constructor; cbn; intuition discriminate |].
  split; [repeat (apply Forall_cons || apply Forall_nil); cbn;
          unfold VEML6070_ADDR_H, VEML6070_ADDR_L, VEML6070_ADDR_ARA; lia |].
  split; [| split].
  - destruct (writeCommand_run host w) as [tr [Hrun Hquiet]].
    exists (write_answer host w), tr. split; assumption.
  - destruct (clearAck_run host w) as [tr [Hrun Hquiet]].
    do 2 eexists. exists tr. split; [exact Hrun | assumption].
  - destruct (readUV_run host w) as [v [tr [Hrun Hbus]]].
    exists v, (high_answer host w), (low_answer host w), tr.
    split; [exact Hrun | exact Hbus].
Qed.

(** ** Clearing the alert *)

(** [clearAck] always returns a boolean and leaves the object alone.
    Under a host that stores only bytes and stores nothing when it
    reports an error, the result is true exactly when the receive from
    the alert response address succeeded and delivered a non-zero byte.
    The second hypothesis is about the host, not the driver: the code
    itself does not look at the error code before it returns the
    buffer. *)
Theorem clearAck_true_iff_nonzero (host : Host) (w : World) :
  (forall byte, rx_data (ara_answer host w) = Some byte -> 0 <= byte <= 255) ->
  (rx_error (ara_answer host w) <> I2C_ERROR_NONE ->
   rx_data (ara_answer host w) = None) ->
  exists b w',
    clearAck host w = Some (b, w')
    /\ self w' = self w
    /\ (b = true <->
        rx_error (ara_answer host w) = I2C_ERROR_NONE
        /\ exists byte, rx_data (ara_answer host w) = Some byte /\ byte <> 0).
Proof.
  intros Hbyte Hfail.
  destruct (clearAck_run host w) as [tr [Hrun _]].
  do 2 eexists. split; [exact Hrun |]. split; [reflexivity |].
  unfold buffer_after.
  destruct (rx_data (ara_answer host w)) as [byte |] eqn:Hdata.
  - specialize (Hbyte byte eq_refl).
    unfold uint8. rewrite Z.mod_small by lia.
    rewrite negb_true_iff, Z.eqb_neq. split.
    + intros Hnz. split.
      * destruct (rx_error (ara_answer host w)) eqn:Herr; [reflexivity |].
        assert (Hnone : Some byte = None) by (apply Hfail; discriminate).
        discriminate Hnone.
      * exists byte. split; [reflexivity | assumption].
    + intros [_ [byte' [Heq Hnz]]]. injection Heq as ->. assumption.
  - cbn. split; [discriminate |].
    intros [_ [byte [Habs _]]]. discriminate Habs.
Qed.

Lemma clearAck_true_iff_nonzero_witness :
  exists b w',
    clearAck (scripted_host (rx_ok 0) (rx_ok 0) (rx_ok 0x01) I2C_ERROR_NONE) started
    = Some (b, w')
    /\ self w' = self started
    /\ (b = true <->
        I2C_ERROR_NONE = I2C_ERROR_NONE
        /\ exists byte, Some 0x01 = Some byte /\ byte <> 0).
Proof.
  apply (clearAck_true_iff_nonzero
           (scripted_host (rx_ok 0) (rx_ok 0) (rx_ok 0x01) I2C_ERROR_NONE) started).
  - intros byte Hdata. cbn in Hdata. injection Hdata as <-. lia.
  - intros Herr. cbn in Herr. congruence.
Defined.

(** The three answers a test would inject, run. *)
Example clearAck_nonzero_byte :
  option_map fst
    (clearAck (scripted_host (rx_ok 0) (rx_ok 0) (rx_ok 0x80) I2C_ERROR_NONE) started)
  = Some true.
Proof. reflexivity. Qed.

Example clearAck_zero_byte :
  option_map fst
    (clearAck (scripted_host (rx_ok 0) (rx_ok 0) (rx_ok 0) I2C_ERROR_NONE) started)
  = Some false.
Proof. reflexivity. Qed.

Example clearAck_failed_receive :
  clearAck (scripted_host (rx_ok 0) (rx_ok 0) (rx_fail 5) I2C_ERROR_NONE) started
  = Some (false,
          mkWorld (self started)
                  [EvI2C_Receive (Some 1) VEML6070_ADDR_ARA 1 I2C_DEFAULT_TIME_OUT
                                 (rx_fail 5);
                   EvTrace 1 "Adafruit_VEML6070::clearAck recieve error: 0X%02x"
                           (I2C_ERROR_CODE 5)]).
Proof. reflexivity. Qed.

(** C7: the part "false when the read itself fails" does not hold of the
    code.  [clearAck] traces the error and then returns the buffer all
    the same, with no guard like the one [readUV] has: whenever the
    receive from the alert response address reports an error after it
    stored a non-zero byte, the result is true. *)
Theorem clearAck_true_on_failed_receive
        (host : Host) (w : World) (code byte : Z) :
  ara_answer host w = rx_fail_storing code byte ->
  1 <= byte <= 255 ->
  clearAck host w
  = Some (true,
          mkWorld (self w)
                  (log w
                   ++ [EvI2C_Receive (_i2c (self w)) VEML6070_ADDR_ARA 1
                                     I2C_DEFAULT_TIME_OUT
                                     (rx_fail_storing code byte);
                       EvTrace 1 "Adafruit_VEML6070::clearAck recieve error: 0X%02x"
                               (I2C_ERROR_CODE code)])).
Proof.
  intros Hanswer Hbyte.
  unfold clearAck, bind, get_self, I2C_Receive. cbn [self log].
  fold (ara_answer host w). rewrite Hanswer.
  cbn [rx_fail_storing rx_error rx_data is_error buffer_after].
  unfold Trace, emit, ret. cbn [self log].
  rewrite <- app_assoc. cbn [app].
  unfold uint8. rewrite Z.mod_small by lia.
  replace (byte =? 0) with false by (symmetry; apply Z.eqb_neq; lia).
  reflexivity.
Qed.

Lemma clearAck_true_on_failed_receive_witness :
  clearAck (scripted_host (rx_ok 0) (rx_ok 0) (rx_fail_storing 5 7) I2C_ERROR_NONE)
           started
  = Some (true,
          mkWorld (self started)
                  [EvI2C_Receive (Some 1) VEML6070_ADDR_ARA 1 I2C_DEFAULT_TIME_OUT
                                 (rx_fail_storing 5 7);
                   EvTrace 1 "Adafruit_VEML6070::clearAck recieve error: 0X%02x"
                           (I2C_ERROR_CODE 5)]).
Proof.
  apply (clearAck_true_on_failed_receive
           (scripted_host (rx_ok 0) (rx_ok 0) (rx_fail_storing 5 7) I2C_ERROR_NONE)
           started 5 7); [reflexivity | lia].
Defined.

(** ** Configuration *)

Module FieldFacts.
Import CommandRegister CommandRegisterFacts.

Lemma b2z_bit (b : bool) : Z.b2z b mod 2 ^ 1 = Z.b2z b.
Proof. destruct b; reflexivity. Qed.

Lemma itime_code_bits (t : veml6070_integrationtime_t) :
  itime_code t mod 2 ^ 2 = itime_code t.
Proof. destruct t; reflexivity. Qed.

Lemma IT_set_IT (reg : Z) (t : veml6070_integrationtime_t) :
  IT (set_IT reg (itime_code t)) = itime_code t.
Proof.
  unfold IT, set_IT. rewrite get_set_same by lia. apply itime_code_bits.
Qed.

Lemma SD_set_IT (reg v : Z) : SD (set_IT reg v) = SD reg.
Proof. unfold SD, set_IT. apply get_set_other; lia. Qed.

Lemma ACK_set_ACK_THD_set_ACK (reg : Z) (state level : bool) :
  ACK (set_ACK_THD (set_ACK reg (Z.b2z state)) (Z.b2z level)) = Z.b2z state.
Proof.
  unfold ACK, set_ACK_THD, set_ACK.
  rewrite get_set_other, get_set_same by lia. apply b2z_bit.
Qed.

Lemma ACK_THD_set_ACK_THD (reg : Z) (level : bool) :
  ACK_THD (set_ACK_THD reg (Z.b2z level)) = Z.b2z level.
Proof.
  unfold ACK_THD, set_ACK_THD. rewrite get_set_same by lia. apply b2z_bit.
Qed.

(** No field assignment of the driver touches bit 1. *)
Lemma reserved_bit_kept (reg pos width v : Z) :
  0 <= width -> 2 <= pos \/ pos + width <= 1 -> 0 <= pos ->
  Z.testbit (set_bits reg pos width v) 1 = Z.testbit reg 1.
Proof.
  intros Hw Hout Hp. rewrite testbit_set_bits by lia.
  replace ((pos <=? 1) && (1 <? pos + width)) with false; [reflexivity |].
  symmetry. apply andb_false_iff. rewrite Z.leb_gt, Z.ltb_ge. lia.
Qed.

End FieldFacts.

Section Configuration.

Variable host : Host.

(** [begin] binds the bus, sets the clock, initialises the bus, writes
    the IT field, and ends with the shared tail. *)
Lemma begin_run (i2c : I2C_ID_t) (itime : veml6070_integrationtime_t) (w : World) :
  let config := mkConfig (Some I2C_FREQ_100K) in
  let d' := mkDriver (Some i2c) config
                     (CommandRegister.set_IT (_commandRegister (self w))
                                             (itime_code itime)) in
  exists evs rx tx,
    begin host i2c itime w
    = Some (tt, mkWorld d' (log w ++ EvI2C_Init (Some i2c) config :: evs))
    /\ filter is_bus_transaction evs
       = [EvI2C_Receive (Some i2c) VEML6070_ADDR_ARA 1 I2C_DEFAULT_TIME_OUT rx;
          EvI2C_Transmit (Some i2c) VEML6070_ADDR_L [_commandRegister d']
                         I2C_DEFAULT_TIME_OUT tx].
Proof.
  intros config d'.
  set (w1 := mkWorld d' (log w ++ [EvI2C_Init (Some i2c) config])).
  change (begin host i2c itime w) with ((clearAck host ;; writeCommand host) w1).
  destruct (clearAck_then_writeCommand host w1) as [evs [tx [Hrun Hbus]]].
  exists evs, (ara_answer host w1), tx. split.
  - rewrite Hrun. subst w1. cbn [self log]. rewrite <- app_assoc. reflexivity.
  - exact Hbus.
Qed.

(** [setInterrupt] writes the ACK and ACK_THD fields and ends with the
    shared tail. *)
Lemma setInterrupt_run (state level : bool) (w : World) :
  let d' := mkDriver (_i2c (self w)) (_i2cConfig (self w))
                     (CommandRegister.set_ACK_THD
                        (CommandRegister.set_ACK (_commandRegister (self w))
                                                 (Z.b2z state))
                        (Z.b2z level)) in
  exists evs rx tx,
    setInterrupt host state level w = Some (tt, mkWorld d' (log w ++ evs))
    /\ filter is_bus_transaction evs
       = [EvI2C_Receive (_i2c (self w)) VEML6070_ADDR_ARA 1 I2C_DEFAULT_TIME_OUT rx;
          EvI2C_Transmit (_i2c (self w)) VEML6070_ADDR_L [_commandRegister d']
                         I2C_DEFAULT_TIME_OUT tx].
Proof.
  intros d'.
  set (w1 := mkWorld d' (log w)).
  change (setInterrupt host state level w)
    with ((clearAck host ;; writeCommand host) w1).
  destruct (clearAck_then_writeCommand host w1) as [evs [tx [Hrun Hbus]]].
  exists evs, (ara_answer host w1), tx. split; [exact Hrun | exact Hbus].
Qed.

End Configuration.

(** [started] is the object [begin] leaves, whatever the host answers. *)
Lemma begin_gives_started (host : Host) :
  option_map (fun r => self (snd r))
             (begin host 1 VEML6070_1_T (mkWorld Adafruit_VEML6070_new []))
  = Some (self started).
Proof.
  destruct (begin_run host 1 VEML6070_1_T (mkWorld Adafruit_VEML6070_new []))
    as [evs [rx [tx [Hrun _]]]].
  rewrite Hrun. reflexivity.
Qed.

(** C8: for every requested integration time, [begin] on the constructed
    object returns after exactly two bus transactions, one receive from
    the alert response address and then one transmit of the register
    byte to the command address; afterwards the IT field of the register
    is the requested value and SD is 0.  (On any object [begin] leaves SD
    as it found it.) *)
Theorem begin_clears_then_writes
        (host : Host) (i2c : I2C_ID_t) (itime : veml6070_integrationtime_t)
        (log0 : list Event) :
  exists w' evs rx tx,
    begin host i2c itime (mkWorld Adafruit_VEML6070_new log0) = Some (tt, w')
    /\ log w' = log0 ++ evs
    /\ filter is_bus_transaction evs
       = [EvI2C_Receive (Some i2c) VEML6070_ADDR_ARA 1 I2C_DEFAULT_TIME_OUT rx;
          EvI2C_Transmit (Some i2c) VEML6070_ADDR_L [_commandRegister (self w')]
                         I2C_DEFAULT_TIME_OUT tx]
    /\ CommandRegister.IT (_commandRegister (self w')) = itime_code itime
    /\ CommandRegister.SD (_commandRegister (self w')) = 0
    /\ (forall w : World,
          exists w'',
            begin host i2c itime w = Some (tt, w'')
            /\ CommandRegister.SD (_commandRegister (self w''))
               = CommandRegister.SD (_commandRegister (self w))).
Proof.
  destruct (begin_run host i2c itime (mkWorld Adafruit_VEML6070_new log0))
    as [evs [rx [tx [Hrun Hbus]]]].
  cbn [self log] in Hrun, Hbus.
  eexists. exists (EvI2C_Init (Some i2c) (mkConfig (Some I2C_FREQ_100K)) :: evs), rx, tx.
  split; [exact Hrun |]. cbn [self log _commandRegister].
  split; [reflexivity |].
  split; [exact Hbus |].
  split; [apply FieldFacts.IT_set_IT |].
  split; [rewrite FieldFacts.SD_set_IT; reflexivity |].
  intros w. destruct (begin_run host i2c itime w) as [evs' [rx' [tx' [Hrun' _]]]].
  eexists. split; [exact Hrun' |]. cbn [self _commandRegister].
  apply FieldFacts.SD_set_IT.
Qed.

(** C9: [setInterrupt(true, true)] followed by [setInterrupt(false,
    false)], from any state: both calls return, each makes exactly two
    bus transactions, the alert-clear receive first and the transmit of
    the register byte second, and the byte left in the register, which is
    the byte of the last transmit, has ACK = 0 and ACK_THD = 0. *)
Theorem setInterrupt_on_then_off (host : Host) (w : World) :
  exists w1 w2 evs1 evs2 rx1 tx1 rx2 tx2,
    setInterrupt host true true w = Some (tt, w1)
    /\ setInterrupt host false false w1 = Some (tt, w2)
    /\ log w1 = log w ++ evs1
    /\ log w2 = log w1 ++ evs2
    /\ filter is_bus_transaction evs1
       = [EvI2C_Receive (_i2c (self w)) VEML6070_ADDR_ARA 1 I2C_DEFAULT_TIME_OUT rx1;
          EvI2C_Transmit (_i2c (self w)) VEML6070_ADDR_L [_commandRegister (self w1)]
                         I2C_DEFAULT_TIME_OUT tx1]
    /\ filter is_bus_transaction evs2
       = [EvI2C_Receive (_i2c (self w)) VEML6070_ADDR_ARA 1 I2C_DEFAULT_TIME_OUT rx2;
          EvI2C_Transmit (_i2c (self w)) VEML6070_ADDR_L [_commandRegister (self w2)]
                         I2C_DEFAULT_TIME_OUT tx2]
    /\ CommandRegister.ACK (_commandRegister (self w2)) = 0
    /\ CommandRegister.ACK_THD (_commandRegister (self w2)) = 0.
Proof.
  destruct (setInterrupt_run host true true w) as [evs1 [rx1 [tx1 [Hrun1 Hbus1]]]].
  match type of Hrun1 with
  | _ = Some (tt, ?w1) =>
      destruct (setInterrupt_run host false false w1)
        as [evs2 [rx2 [tx2 [Hrun2 Hbus2]]]]
  end.
  cbn [self log _i2c _i2cConfig _commandRegister] in Hrun2, Hbus2.
  do 2 eexists. exists evs1, evs2, rx1, tx1, rx2, tx2.
  split; [exact Hrun1 |].
  split; [exact Hrun2 |].
  cbn [self log _commandRegister].
  split; [reflexivity |].
  split; [reflexivity |].
  split; [exact Hbus1 |].
  split; [exact Hbus2 |].
  split.
  - apply (FieldFacts.ACK_set_ACK_THD_set_ACK _ false false).
  - apply (FieldFacts.ACK_THD_set_ACK_THD _ false).
Qed.

(** ** The reserved bit *)

Section ReservedBit.

Variable host : Host.

Lemma sleep_run (state : bool) (w : World) :
  let d' := mkDriver (_i2c (self w)) (_i2cConfig (self w))
                     (CommandRegister.set_SD (_commandRegister (self w))
                                             (Z.b2z state)) in
  exists tx tr,
    sleep host state w
    = Some (tt, mkWorld d'
                  (log w
                   ++ EvI2C_Transmit (_i2c (self w)) VEML6070_ADDR_L
                        [_commandRegister d'] I2C_DEFAULT_TIME_OUT tx
                   :: tr))
    /\ filter is_bus_transaction tr = [].
Proof.
  intros d'.
  change (sleep host state w) with (writeCommand host (mkWorld d' (log w))).
  destruct (writeCommand_run host (mkWorld d' (log w))) as [tr [Hrun Hquiet]].
  exists (write_answer host (mkWorld d' (log w))), tr.
  split; [exact Hrun | exact Hquiet].
Qed.

(** A property that holds of every event that is no bus transaction holds
    of a whole list once it holds of the list's bus transactions. *)
Lemma Forall_from_bus_transactions (P : Event -> Prop) (evs : list Event) :
  (forall e, is_bus_transaction e = false -> P e) ->
  Forall P (filter is_bus_transaction evs) -> Forall P evs.
Proof.
  intros Hquiet. induction evs as [| e evs IH]; intros Hbus; [constructor |].
  cbn [filter] in Hbus. destruct (is_bus_transaction e) eqn:He.
  - inversion Hbus; subst. constructor; auto.
  - constructor; auto.
Qed.

Lemma transmits_only_quiet (byte : Z) (e : Event) :
  is_bus_transaction e = false -> transmits_only byte e.
Proof. destruct e; cbn; intros H; (discriminate H || exact I). Qed.

Lemma transmits_only_reserved (byte : Z) (e : Event) :
  Z.testbit byte 1 = true -> transmits_only byte e -> transmits_reserved_set e.
Proof.
  intros Hbit. destruct e; cbn; auto.
  intros ->. constructor; [exact Hbit | constructor].
Qed.

(** One call, from any state: it returns, it leaves bit 1 of the register
    as it was, and whatever it transmits is the register byte it leaves. *)
Lemma run_call_spec (c : Call) (w : World) :
  exists w' evs,
    run_call host c w = Some (tt, w')
    /\ log w' = log w ++ evs
    /\ Z.testbit (_commandRegister (self w')) 1
       = Z.testbit (_commandRegister (self w)) 1
    /\ Forall (transmits_only (_commandRegister (self w'))) evs.
Proof.
  destruct c as [i2c itime | state level | | | | state |]; cbn [run_call].
  - destruct (begin_run host i2c itime w) as [evs [rx [tx [Hrun Hbus]]]].
    do 2 eexists. split; [exact Hrun |]. cbn [self log _commandRegister].
    split; [reflexivity |]. split.
    + apply FieldFacts.reserved_bit_kept; lia.
    + constructor; [exact I |].
      apply Forall_from_bus_transactions; [apply transmits_only_quiet |].
      rewrite Hbus. repeat constructor.
  - destruct (setInterrupt_run host state level w) as [evs [rx [tx [Hrun Hbus]]]].
    do 2 eexists. split; [exact Hrun |]. cbn [self log _commandRegister].
    split; [reflexivity |]. split.
    + unfold CommandRegister.set_ACK_THD, CommandRegister.set_ACK.
      rewrite !FieldFacts.reserved_bit_kept by lia. reflexivity.
    + apply Forall_from_bus_transactions; [apply transmits_only_quiet |].
      rewrite Hbus. repeat constructor.
  - destruct (clearAck_run host w) as [tr [Hrun Hquiet]].
    unfold bind. rewrite Hrun. unfold ret.
    do 2 eexists. split; [reflexivity |]. cbn [self log].
    split; [reflexivity |]. split; [reflexivity |].
    apply Forall_from_bus_transactions; [apply transmits_only_quiet |].
    cbn. rewrite Hquiet. repeat constructor.
  - destruct (readUV_run host w) as [v [tr [Hrun Hbus]]].
    unfold bind. rewrite Hrun. unfold ret.
    do 2 eexists. split; [reflexivity |]. cbn [self log].
    split; [unfold waited; rewrite <- app_assoc; reflexivity |].
    split; [reflexivity |].
    apply Forall_app. split.
    + apply Forall_forall. intros e He. apply repeat_spec in He. subst e. exact I.
    + apply Forall_from_bus_transactions; [apply transmits_only_quiet |].
      cbn. rewrite Hbus.
      destruct (is_error (rx_error (high_answer host w))); repeat constructor.
  - rewrite waitForNext_run.
    do 2 eexists. split; [reflexivity |]. cbn [self log].
    split; [reflexivity |]. split; [reflexivity |].
    apply Forall_forall. intros e He. apply repeat_spec in He. subst e. exact I.
  - destruct (sleep_run state w) as [tx [tr [Hrun Hquiet]]].
    do 2 eexists. split; [exact Hrun |]. cbn [self log _commandRegister].
    split; [reflexivity |]. split.
    + apply FieldFacts.reserved_bit_kept; lia.
    + apply Forall_from_bus_transactions; [apply transmits_only_quiet |].
      cbn. rewrite Hquiet. repeat constructor.
  - destruct (writeCommand_run host w) as [tr [Hrun Hquiet]].
    do 2 eexists. split; [exact Hrun |]. cbn [self log].
    split; [reflexivity |]. split; [reflexivity |].
    apply Forall_from_bus_transactions; [apply transmits_only_quiet |].
    cbn. rewrite Hquiet. repeat constructor.
Qed.

(** The register stays a byte: no field assignment reaches past bit 5. *)
Lemma run_call_register_uint8 (c : Call) (w w' : World) :
  0 <= _commandRegister (self w) < 256 ->
  run_call host c w = Some (tt, w') ->
  0 <= _commandRegister (self w') < 256.
Proof.
  intros Hreg.
  destruct c as [i2c itime | state level | | | | state |]; cbn [run_call].
  - destruct (begin_run host i2c itime w) as [evs [rx [tx [Hrun _]]]].
    rewrite Hrun. intros [= <-]. cbn [self _commandRegister].
    apply CommandRegisterFacts.set_bits_uint8; lia.
  - destruct (setInterrupt_run host state level w) as [evs [rx [tx [Hrun _]]]].
    rewrite Hrun. intros [= <-]. cbn [self _commandRegister].
    repeat apply CommandRegisterFacts.set_bits_uint8; lia.
  - destruct (clearAck_run host w) as [tr [Hrun _]].
    unfold bind. rewrite Hrun. intros [= <-]. exact Hreg.
  - destruct (readUV_run host w) as [v [tr [Hrun _]]].
    unfold bind. rewrite Hrun. intros [= <-]. exact Hreg.
  - rewrite waitForNext_run. intros [= <-]. exact Hreg.
  - destruct (sleep_run state w) as [tx [tr [Hrun _]]].
    rewrite Hrun. intros [= <-]. cbn [self _commandRegister].
    apply CommandRegisterFacts.set_bits_uint8; lia.
  - destruct (writeCommand_run host w) as [tr [Hrun _]].
    rewrite Hrun. intros [= <-]. exact Hreg.
Qed.

(** Any program of calls, from a state whose register has bit 1 set and
    whose past transmits all had it set: the same holds at the end. *)
Lemma run_calls_reserved (cs : list Call) :
  forall w,
    Z.testbit (_commandRegister (self w)) 1 = true ->
    Forall transmits_reserved_set (log w) ->
    exists w',
      run_calls host cs w = Some (tt, w')
      /\ Z.testbit (_commandRegister (self w')) 1 = true
      /\ Forall transmits_reserved_set (log w').
Proof.
  induction cs as [| c cs IH]; intros w Hbit Hlog.
  - exists w. repeat split; assumption.
  - cbn [run_calls]. unfold bind.
    destruct (run_call_spec c w) as [w1 [evs [Hrun [Hlog1 [Hbit1 Hsent]]]]].
    rewrite Hrun. rewrite Hbit in Hbit1.
    apply IH; [exact Hbit1 |].
    rewrite Hlog1. apply Forall_app. split; [exact Hlog |].
    eapply Forall_impl; [| exact Hsent].
    intros e. apply transmits_only_reserved. exact Hbit1.
Qed.

End ReservedBit.

(** C10: the constructor sets bit 1 of the register; each of [begin],
    [setInterrupt], [clearAck], [readUV], [waitForNext], [sleep] and
    [writeCommand] returns with that bit as it found it; so after any
    sequence of calls on a constructed object the bit is still set and
    every byte that was transmitted has it set. *)
Theorem reserved_bit_stays_set (host : Host) :
  Z.testbit (_commandRegister Adafruit_VEML6070_new) 1 = true
  /\ (forall (c : Call) (w : World),
         exists w',
           run_call host c w = Some (tt, w')
           /\ Z.testbit (_commandRegister (self w')) 1
              = Z.testbit (_commandRegister (self w)) 1)
  /\ (forall cs : list Call,
         exists w',
           run_calls host cs (mkWorld Adafruit_VEML6070_new []) = Some (tt, w')
           /\ Z.testbit (_commandRegister (self w')) 1 = true
           /\ Forall transmits_reserved_set (log w')).
Proof.
  split; [reflexivity |]. split.
  - intros c w.
    destruct (run_call_spec host c w) as [w' [evs [Hrun [_ [Hbit _]]]]].
    exists w'. split; assumption.
  - intros cs. apply run_calls_reserved; [reflexivity | constructor].
Qed.


(** * Further properties of the driver *)

(** ** More on field assignment *)

Module FieldAlgebra.
Import CommandRegister CommandRegisterFacts.

(** Settles an equation between bytes built by field assignments, bit by
    bit. *)
Ltac by_bits :=
  apply Z.bits_inj'; intros ?i ?Hi;
  rewrite ?testbit_set_bits by lia;
  repeat match goal with
         | |- context [?a <=? ?b] => destruct (Z.leb_spec a b)
         | |- context [?a <? ?b] => destruct (Z.ltb_spec a b)
         end;
  cbn [andb]; first [reflexivity | lia].

(** Assigning a field twice keeps the second value. *)
Lemma set_bits_overwrite (reg pos width v v' : Z) :
  0 <= pos -> 0 <= width ->
  set_bits (set_bits reg pos width v) pos width v' = set_bits reg pos width v'.
Proof. intros Hp Hw. by_bits. Qed.

(** Assignments to fields that share no bit can be swapped. *)
Lemma set_bits_commute (reg pos width v pos' width' v' : Z) :
  0 <= pos -> 0 <= width -> 0 <= pos' -> 0 <= width' ->
  pos' + width' <= pos \/ pos + width <= pos' ->
  set_bits (set_bits reg pos width v) pos' width' v'
  = set_bits (set_bits reg pos' width' v') pos width v.
Proof. intros Hp Hw Hp' Hw' Hdis. by_bits. Qed.

(** Assigning a field the value it holds changes nothing. *)
Lemma set_bits_get_bits (reg pos width : Z) :
  0 <= pos -> 0 <= width ->
  set_bits reg pos width (get_bits reg pos width) = reg.
Proof.
  intros Hp Hw. apply Z.bits_inj'. intros i Hi.
  rewrite testbit_set_bits by lia.
  destruct (Z.leb_spec pos i); destruct (Z.ltb_spec i (pos + width)); cbn [andb];
    try reflexivity.
  rewrite testbit_get_bits by lia.
  replace (i - pos <? width) with true by (symmetry; apply Z.ltb_lt; lia).
  replace (i - pos + pos) with i by lia. reflexivity.
Qed.

(** A value below [2 ^ n] stays below it under an assignment to a field
    that ends at or before bit [n]. *)
Lemma set_bits_below (n reg pos width v : Z) :
  0 <= pos -> 0 <= width -> pos + width <= n ->
  0 <= reg < 2 ^ n -> 0 <= set_bits reg pos width v < 2 ^ n.
Proof.
  intros Hp Hw Hfit Hreg.
  assert (Hhigh : forall i, n <= i -> Z.testbit (set_bits reg pos width v) i = false).
  { intros i Hi. rewrite testbit_set_bits by lia.
    replace (i <? pos + width) with false by (symmetry; apply Z.ltb_ge; lia).
    rewrite andb_false_r.
    rewrite <- (Z.mod_small reg (2 ^ n)) by lia.
    apply Z.mod_pow2_bits_high. lia. }
  assert (Hnn : 0 <= set_bits reg pos width v).
  { unfold set_bits. apply Z.lor_nonneg. split.
    - apply Z.ldiff_nonneg. lia.
    - apply Z.shiftl_nonneg. apply Z.land_nonneg. right.
      rewrite Z.ones_equiv. pose proof (Z.pow_pos_nonneg 2 width). lia. }
  split; [assumption |].
  destruct (Z.eq_dec (set_bits reg pos width v) 0) as [-> | Hne];
    [apply Z.pow_pos_nonneg; lia |].
  apply Z.log2_lt_pow2; [lia |].
  destruct (Z.lt_ge_cases (Z.log2 (set_bits reg pos width v)) n) as [| Hbig];
    [assumption |].
  pose proof (Z.bit_log2 (set_bits reg pos width v) ltac:(lia)) as Hbit.
  rewrite Hhigh in Hbit by assumption. discriminate.
Qed.

(** A byte below 64 with bit 1 set is the sum of its four fields at
    their positions, plus the reserved bit. *)
Lemma encoded_by_fields (reg : Z) :
  0 <= reg < 64 -> Z.testbit reg 1 = true ->
  reg = SD reg + 2 + 4 * IT reg + 16 * ACK_THD reg + 32 * ACK reg.
Proof.
  intros Hrange Hbit.
  assert (Hall : forallb
                   (fun n => let r := Z.of_nat n in
                             implb (Z.testbit r 1)
                                   (r =? SD r + 2 + 4 * IT r + 16 * ACK_THD r
                                         + 32 * ACK r))
                   (seq 0 64) = true) by reflexivity.
  rewrite forallb_forall in Hall.
  specialize (Hall (Z.to_nat reg)).
  rewrite Z2Nat.id in Hall by lia. cbv zeta in Hall.
  rewrite Hbit in Hall. cbn [implb] in Hall.
  apply Z.eqb_eq. apply Hall. apply in_seq. lia.
Qed.

End FieldAlgebra.

(** ** Single calls *)

(** X1: [sleep(state)] on any object: it returns after one transmit of the
    new register byte to the command address, never reads the alert
    response address, and only a trace line can follow.  SD becomes
    [state]; IT, ACK_THD, ACK and the bus handle are as before. *)
Theorem sleep_sets_SD_and_writes (host : Host) (state : bool) (w : World) :
  exists w' tx tr,
    sleep host state w = Some (tt, w')
    /\ log w' = log w
                ++ EvI2C_Transmit (_i2c (self w)) VEML6070_ADDR_L
                     [_commandRegister (self w')] I2C_DEFAULT_TIME_OUT tx
                :: tr
    /\ filter is_bus_transaction tr = []
    /\ _i2c (self w') = _i2c (self w)
    /\ CommandRegister.SD (_commandRegister (self w')) = Z.b2z state
    /\ CommandRegister.IT (_commandRegister (self w'))
       = CommandRegister.IT (_commandRegister (self w))
    /\ CommandRegister.ACK_THD (_commandRegister (self w'))
       = CommandRegister.ACK_THD (_commandRegister (self w))
    /\ CommandRegister.ACK (_commandRegister (self w'))
       = CommandRegister.ACK (_commandRegister (self w)).
Proof.
  destruct (sleep_run host state w) as [tx [tr [Hrun Hquiet]]].
  eexists. exists tx, tr. split; [exact Hrun |].
  cbn [self log _i2c _commandRegister].
  split; [reflexivity |]. split; [exact Hquiet |]. split; [reflexivity |].
  unfold CommandRegister.SD, CommandRegister.IT, CommandRegister.ACK_THD,
    CommandRegister.ACK, CommandRegister.set_SD.
  rewrite CommandRegisterFacts.get_set_same by lia.
  rewrite !CommandRegisterFacts.get_set_other by lia.
  split; [apply FieldFacts.b2z_bit |]. repeat split.
Qed.

(** X2: [setInterrupt(state, level)] on any object: ACK becomes [state] and
    ACK_THD becomes [level], SD and IT are as before, and the byte
    transmitted after the alert-clear receive is the new register. *)
Theorem setInterrupt_sets_fields (host : Host) (state level : bool) (w : World) :
  exists w' evs rx tx,
    setInterrupt host state level w = Some (tt, w')
    /\ log w' = log w ++ evs
    /\ filter is_bus_transaction evs
       = [EvI2C_Receive (_i2c (self w)) VEML6070_ADDR_ARA 1 I2C_DEFAULT_TIME_OUT rx;
          EvI2C_Transmit (_i2c (self w)) VEML6070_ADDR_L [_commandRegister (self w')]
                         I2C_DEFAULT_TIME_OUT tx]
    /\ CommandRegister.ACK (_commandRegister (self w')) = Z.b2z state
    /\ CommandRegister.ACK_THD (_commandRegister (self w')) = Z.b2z level
    /\ CommandRegister.SD (_commandRegister (self w'))
       = CommandRegister.SD (_commandRegister (self w))
    /\ CommandRegister.IT (_commandRegister (self w'))
       = CommandRegister.IT (_commandRegister (self w)).
Proof.
  destruct (setInterrupt_run host state level w) as [evs [rx [tx [Hrun Hbus]]]].
  eexists. exists evs, rx, tx. split; [exact Hrun |].
  cbn [self log _commandRegister].
  split; [reflexivity |]. split; [exact Hbus |].
  split; [apply FieldFacts.ACK_set_ACK_THD_set_ACK |].
  split; [apply FieldFacts.ACK_THD_set_ACK_THD |].
  unfold CommandRegister.SD, CommandRegister.IT, CommandRegister.set_ACK_THD,
    CommandRegister.set_ACK.
  rewrite !CommandRegisterFacts.get_set_other by lia.
  split; reflexivity.
Qed.

(** X3: [begin(i2c, itime)] on any object, also one bound to another bus
    before: the first host call is [I2C_Init] with the new handle and the
    100 kHz clock, both bus transactions that follow use the new handle,
    the object keeps the handle and the clock, and ACK and ACK_THD are as
    before. *)
Theorem begin_binds_bus
        (host : Host) (i2c : I2C_ID_t) (itime : veml6070_integrationtime_t)
        (w : World) :
  exists w' evs rx tx,
    begin host i2c itime w = Some (tt, w')
    /\ log w' = log w
                ++ EvI2C_Init (Some i2c) (mkConfig (Some I2C_FREQ_100K)) :: evs
    /\ filter is_bus_transaction evs
       = [EvI2C_Receive (Some i2c) VEML6070_ADDR_ARA 1 I2C_DEFAULT_TIME_OUT rx;
          EvI2C_Transmit (Some i2c) VEML6070_ADDR_L [_commandRegister (self w')]
                         I2C_DEFAULT_TIME_OUT tx]
    /\ _i2c (self w') = Some i2c
    /\ freq (_i2cConfig (self w')) = Some I2C_FREQ_100K
    /\ CommandRegister.ACK (_commandRegister (self w'))
       = CommandRegister.ACK (_commandRegister (self w))
    /\ CommandRegister.ACK_THD (_commandRegister (self w'))
       = CommandRegister.ACK_THD (_commandRegister (self w)).
Proof.
  destruct (begin_run host i2c itime w) as [evs [rx [tx [Hrun Hbus]]]].
  eexists. exists evs, rx, tx. split; [exact Hrun |].
  cbn [self log _i2c _i2cConfig _commandRegister freq].
  split; [reflexivity |]. split; [exact Hbus |].
  split; [reflexivity |]. split; [reflexivity |].
  unfold CommandRegister.ACK, CommandRegister.ACK_THD, CommandRegister.set_IT.
  rewrite !CommandRegisterFacts.get_set_other by lia.
  split; reflexivity.
Qed.

(** X4: When the receive from the high address reports an error, [readUV]
    stops there: after the wait the log holds that one receive and one
    trace line carrying the error code, and the low address is not
    read. *)
Theorem readUV_stops_after_high_failure (host : Host) (w : World) :
  rx_error (high_answer host w) <> I2C_ERROR_NONE ->
  readUV host w
  = Some (readUV_failure,
          mkWorld (self w)
                  (waited w
                   ++ [high_event host w;
                       EvTrace 1 "Adafruit_VEML6070::readUV recieve error: 0X%02x"
                               (rx_error (high_answer host w))])).
Proof.
  intros Hhigh. apply is_error_true in Hhigh.
  unfold readUV, bind. rewrite waitForNext_run.
  unfold get_self, I2C_Receive. cbn [self log].
  fold (waited w). fold (high_answer host w). fold (high_event host w).
  rewrite Hhigh. unfold Trace, emit, ret. cbn [self log].
  rewrite <- app_assoc. reflexivity.
Qed.

Lemma readUV_stops_after_high_failure_witness :
  readUV (scripted_host (rx_fail 7) (rx_ok 0x34) (rx_ok 0) I2C_ERROR_NONE) started
  = Some (0xFFFF,
          mkWorld (self started)
                  [EvOS_Sleep 63; EvOS_Sleep 63;
                   EvI2C_Receive (Some 1) VEML6070_ADDR_H 1 I2C_DEFAULT_TIME_OUT
                                 (rx_fail 7);
                   EvTrace 1 "Adafruit_VEML6070::readUV recieve error: 0X%02x"
                           (I2C_ERROR_CODE 7)]).
Proof.
  apply (readUV_stops_after_high_failure
           (scripted_host (rx_fail 7) (rx_ok 0x34) (rx_ok 0) I2C_ERROR_NONE)
           started).
  cbn. discriminate.
Defined.


(** ** The object under sequences of calls *)

Section ObjectState.

Variable host : Host.

(** What a call leaves in the object does not depend on the host or on
    the log: the answers of the bus never reach the object. *)
Lemma run_call_host_independent (host' : Host) (c : Call) (w1 w2 : World) :
  self w1 = self w2 ->
  exists w1' w2',
    run_call host c w1 = Some (tt, w1')
    /\ run_call host' c w2 = Some (tt, w2')
    /\ self w1' = self w2'.
Proof.
  intros Hself.
  destruct c as [i2c itime | state level | | | | state |]; cbn [run_call].
  - destruct (begin_run host i2c itime w1) as [e1 [r1 [t1 [Hrun1 _]]]].
    destruct (begin_run host' i2c itime w2) as [e2 [r2 [t2 [Hrun2 _]]]].
    do 2 eexists. split; [exact Hrun1 |]. split; [exact Hrun2 |].
    cbn [self]. rewrite Hself. reflexivity.
  - destruct (setInterrupt_run host state level w1) as [e1 [r1 [t1 [Hrun1 _]]]].
    destruct (setInterrupt_run host' state level w2) as [e2 [r2 [t2 [Hrun2 _]]]].
    do 2 eexists. split; [exact Hrun1 |]. split; [exact Hrun2 |].
    cbn [self]. rewrite Hself. reflexivity.
  - destruct (clearAck_run host w1) as [t1 [Hrun1 _]].
    destruct (clearAck_run host' w2) as [t2 [Hrun2 _]].
    unfold bind. rewrite Hrun1, Hrun2. unfold ret.
    do 2 eexists. split; [reflexivity |]. split; [reflexivity |]. exact Hself.
  - destruct (readUV_run host w1) as [v1 [t1 [Hrun1 _]]].
    destruct (readUV_run host' w2) as [v2 [t2 [Hrun2 _]]].
    unfold bind. rewrite Hrun1, Hrun2. unfold ret.
    do 2 eexists. split; [reflexivity |]. split; [reflexivity |]. exact Hself.
  - rewrite !waitForNext_run.
    do 2 eexists. split; [reflexivity |]. split; [reflexivity |]. exact Hself.
  - destruct (sleep_run host state w1) as [x1 [t1 [Hrun1 _]]].
    destruct (sleep_run host' state w2) as [x2 [t2 [Hrun2 _]]].
    do 2 eexists. split; [exact Hrun1 |]. split; [exact Hrun2 |].
    cbn [self]. rewrite Hself. reflexivity.
  - destruct (writeCommand_run host w1) as [t1 [Hrun1 _]].
    destruct (writeCommand_run host' w2) as [t2 [Hrun2 _]].
    do 2 eexists. split; [exact Hrun1 |]. split; [exact Hrun2 |]. exact Hself.
Qed.

Lemma run_calls_host_independent (host' : Host) (cs : list Call) :
  forall w1 w2,
    self w1 = self w2 ->
    exists w1' w2',
      run_calls host cs w1 = Some (tt, w1')
      /\ run_calls host' cs w2 = Some (tt, w2')
      /\ self w1' = self w2'.
Proof.
  induction cs as [| c cs IH]; intros w1 w2 Hself.
  - exists w1, w2. repeat split. exact Hself.
  - destruct (run_call_host_independent host' c w1 w2 Hself)
      as [m1 [m2 [Hrun1 [Hrun2 Hmid]]]].
    cbn [run_calls]. unfold bind. rewrite Hrun1, Hrun2.
    apply IH. exact Hmid.
Qed.

End ObjectState.

(** X5: The object after any sequence of calls is the same under any two
    hosts and any two earlier logs: no answer of the bus, failure or data,
    is ever stored in the object. *)
Theorem object_independent_of_host
        (host host' : Host) (cs : list Call) (d : Adafruit_VEML6070)
        (log1 log2 : list Event) :
  exists w1 w2,
    run_calls host cs (mkWorld d log1) = Some (tt, w1)
    /\ run_calls host' cs (mkWorld d log2) = Some (tt, w2)
    /\ self w1 = self w2.
Proof.
  apply run_calls_host_independent. reflexivity.
Qed.


(** ** Configuration calls on different fields *)

Section Commuting.

Variable host : Host.

Lemma begin_object (i2c : I2C_ID_t) (itime : veml6070_integrationtime_t) (w : World) :
  exists w',
    begin host i2c itime w = Some (tt, w')
    /\ self w' = mkDriver (Some i2c) (mkConfig (Some I2C_FREQ_100K))
                          (CommandRegister.set_IT (_commandRegister (self w))
                                                  (itime_code itime)).
Proof.
  destruct (begin_run host i2c itime w) as [evs [rx [tx [Hrun _]]]].
  eexists. split; [exact Hrun | reflexivity].
Qed.

Lemma setInterrupt_object (state level : bool) (w : World) :
  exists w',
    setInterrupt host state level w = Some (tt, w')
    /\ self w' = mkDriver (_i2c (self w)) (_i2cConfig (self w))
                          (CommandRegister.set_ACK_THD
                             (CommandRegister.set_ACK (_commandRegister (self w))
                                                      (Z.b2z state))
                             (Z.b2z level)).
Proof.
  destruct (setInterrupt_run host state level w) as [evs [rx [tx [Hrun _]]]].
  eexists. split; [exact Hrun | reflexivity].
Qed.

Lemma sleep_object (state : bool) (w : World) :
  exists w',
    sleep host state w = Some (tt, w')
    /\ self w' = mkDriver (_i2c (self w)) (_i2cConfig (self w))
                          (CommandRegister.set_SD (_commandRegister (self w))
                                                  (Z.b2z state)).
Proof.
  destruct (sleep_run host state w) as [tx [tr [Hrun _]]].
  eexists. split; [exact Hrun | reflexivity].
Qed.

End Commuting.

(** X7: [begin], [setInterrupt] and [sleep] write different fields, so any
    two of them leave the same object in either order. *)
Theorem configuration_calls_commute
        (host : Host) (i2c : I2C_ID_t) (itime : veml6070_integrationtime_t)
        (state level asleep : bool) (w : World) :
  (exists w1 w2,
      run_calls host [CallSleep asleep; CallSetInterrupt state level] w = Some (tt, w1)
      /\ run_calls host [CallSetInterrupt state level; CallSleep asleep] w = Some (tt, w2)
      /\ self w1 = self w2)
  /\ (exists w1 w2,
         run_calls host [CallBegin i2c itime; CallSleep asleep] w = Some (tt, w1)
         /\ run_calls host [CallSleep asleep; CallBegin i2c itime] w = Some (tt, w2)
         /\ self w1 = self w2)
  /\ (exists w1 w2,
         run_calls host [CallBegin i2c itime; CallSetInterrupt state level] w
         = Some (tt, w1)
         /\ run_calls host [CallSetInterrupt state level; CallBegin i2c itime] w
            = Some (tt, w2)
         /\ self w1 = self w2).
Proof.
  split; [| split].
  - destruct (sleep_object host asleep w) as [a1 [Ha1 Sa1]].
    destruct (setInterrupt_object host state level a1) as [a2 [Ha2 Sa2]].
    destruct (setInterrupt_object host state level w) as [b1 [Hb1 Sb1]].
    destruct (sleep_object host asleep b1) as [b2 [Hb2 Sb2]].
    exists a2, b2. cbn [run_calls run_call]. unfold bind.
    rewrite Ha1, Ha2, Hb1, Hb2. unfold ret.
    split; [reflexivity |]. split; [reflexivity |].
    rewrite Sa2, Sa1, Sb2, Sb1. cbn [_i2c _i2cConfig _commandRegister]. f_equal.
    unfold CommandRegister.set_ACK_THD, CommandRegister.set_ACK,
      CommandRegister.set_SD.
    rewrite (FieldAlgebra.set_bits_commute _ 0 1 _ 5 1) by lia.
    rewrite (FieldAlgebra.set_bits_commute _ 0 1 _ 4 1) by lia.
    reflexivity.
  - destruct (begin_object host i2c itime w) as [a1 [Ha1 Sa1]].
    destruct (sleep_object host asleep a1) as [a2 [Ha2 Sa2]].
    destruct (sleep_object host asleep w) as [b1 [Hb1 Sb1]].
    destruct (begin_object host i2c itime b1) as [b2 [Hb2 Sb2]].
    exists a2, b2. cbn [run_calls run_call]. unfold bind.
    rewrite Ha1, Ha2, Hb1, Hb2. unfold ret.
    split; [reflexivity |]. split; [reflexivity |].
    rewrite Sa2, Sa1, Sb2, Sb1. cbn [_i2c _i2cConfig _commandRegister]. f_equal.
    unfold CommandRegister.set_IT, CommandRegister.set_SD.
    apply FieldAlgebra.set_bits_commute; lia.
  - destruct (begin_object host i2c itime w) as [a1 [Ha1 Sa1]].
    destruct (setInterrupt_object host state level a1) as [a2 [Ha2 Sa2]].
    destruct (setInterrupt_object host state level w) as [b1 [Hb1 Sb1]].
    destruct (begin_object host i2c itime b1) as [b2 [Hb2 Sb2]].
    exists a2, b2. cbn [run_calls run_call]. unfold bind.
    rewrite Ha1, Ha2, Hb1, Hb2. unfold ret.
    split; [reflexivity |]. split; [reflexivity |].
    rewrite Sa2, Sa1, Sb2, Sb1. cbn [_i2c _i2cConfig _commandRegister]. f_equal.
    unfold CommandRegister.set_ACK_THD, CommandRegister.set_ACK,
      CommandRegister.set_IT.
    rewrite (FieldAlgebra.set_bits_commute _ 2 2 _ 5 1) by lia.
    rewrite (FieldAlgebra.set_bits_commute _ 2 2 _ 4 1) by lia.
    reflexivity.
Qed.

(** ** The register and the bus *)

Section Shadow.

Variable host : Host.

Lemma last_transmitted_app (l l' : list Event) :
  last_transmitted (l ++ l')
  = match last_transmitted l' with
    | Some data => Some data
    | None => last_transmitted l
    end.
Proof.
  induction l as [| e l IH]; cbn [app last_transmitted].
  - destruct (last_transmitted l'); reflexivity.
  - rewrite IH. destruct (last_transmitted l'); reflexivity.
Qed.

Lemma last_transmitted_bus_transactions (l : list Event) :
  last_transmitted (filter is_bus_transaction l) = last_transmitted l.
Proof.
  induction l as [| e l IH]; [reflexivity |].
  cbn [filter]. destruct e; cbn [is_bus_transaction last_transmitted];
    rewrite ?IH; destruct (last_transmitted l); reflexivity.
Qed.

(** One call either transmits, and then the last byte it transmits is
    the register it leaves, or transmits nothing and leaves the register
    as it was. *)
Lemma run_call_shadow (c : Call) (w : World) :
  exists w' evs,
    run_call host c w = Some (tt, w')
    /\ log w' = log w ++ evs
    /\ (last_transmitted evs = Some [_commandRegister (self w')]
        \/ (last_transmitted evs = None
            /\ _commandRegister (self w') = _commandRegister (self w))).
Proof.
  destruct c as [i2c itime | state level | | | | state |]; cbn [run_call].
  - destruct (begin_run host i2c itime w) as [evs [rx [tx [Hrun Hbus]]]].
    do 2 eexists. split; [exact Hrun |]. cbn [self log].
    split; [reflexivity |]. left.
    cbn [last_transmitted].
    rewrite <- last_transmitted_bus_transactions, Hbus. reflexivity.
  - destruct (setInterrupt_run host state level w) as [evs [rx [tx [Hrun Hbus]]]].
    do 2 eexists. split; [exact Hrun |]. cbn [self log].
    split; [reflexivity |]. left.
    rewrite <- last_transmitted_bus_transactions, Hbus. reflexivity.
  - destruct (clearAck_run host w) as [tr [Hrun Hquiet]].
    unfold bind. rewrite Hrun. unfold ret.
    do 2 eexists. split; [reflexivity |]. cbn [self log].
    split; [reflexivity |]. right. split; [| reflexivity].
    rewrite <- last_transmitted_bus_transactions. cbn. rewrite Hquiet. reflexivity.
  - destruct (readUV_run host w) as [v [tr [Hrun Hbus]]].
    unfold bind. rewrite Hrun. unfold ret.
    do 2 eexists. split; [reflexivity |]. cbn [self log].
    split; [unfold waited; rewrite <- app_assoc; reflexivity |].
    right. split; [| reflexivity].
    rewrite last_transmitted_app.
    rewrite <- (last_transmitted_bus_transactions (_ :: tr)). cbn. rewrite Hbus.
    destruct (is_error (rx_error (high_answer host w))); cbn.
    + induction (sleep_count (_commandRegister (self w))); [reflexivity |].
      cbn. rewrite IHn. reflexivity.
    + induction (sleep_count (_commandRegister (self w))); [reflexivity |].
      cbn. rewrite IHn. reflexivity.
  - rewrite waitForNext_run.
    do 2 eexists. split; [reflexivity |]. cbn [self log].
    split; [reflexivity |]. right. split; [| reflexivity].
    induction (sleep_count (_commandRegister (self w))); [reflexivity |].
    cbn. rewrite IHn. reflexivity.
  - destruct (sleep_run host state w) as [tx [tr [Hrun Hquiet]]].
    do 2 eexists. split; [exact Hrun |]. cbn [self log].
    split; [reflexivity |]. left.
    rewrite <- last_transmitted_bus_transactions. cbn. rewrite Hquiet. reflexivity.
  - destruct (writeCommand_run host w) as [tr [Hrun Hquiet]].
    do 2 eexists. split; [exact Hrun |]. cbn [self log].
    split; [reflexivity |]. left.
    rewrite <- last_transmitted_bus_transactions. cbn. rewrite Hquiet. reflexivity.
Qed.

Lemma run_calls_shadow (initial : Z) (cs : list Call) :
  forall w,
    (last_transmitted (log w) = Some [_commandRegister (self w)]
     \/ (last_transmitted (log w) = None /\ _commandRegister (self w) = initial)) ->
    exists w',
      run_calls host cs w = Some (tt, w')
      /\ (last_transmitted (log w') = Some [_commandRegister (self w')]
          \/ (last_transmitted (log w') = None
              /\ _commandRegister (self w') = initial)).
Proof.
  induction cs as [| c cs IH]; intros w Hinv.
  - exists w. split; [reflexivity | exact Hinv].
  - destruct (run_call_shadow c w) as [w1 [evs [Hrun [Hlog Hstep]]]].
    cbn [run_calls]. unfold bind. rewrite Hrun.
    apply IH. rewrite Hlog, last_transmitted_app.
    destruct Hstep as [-> | [-> Hsame]]; [left; reflexivity |].
    rewrite Hsame. exact Hinv.
Qed.

End Shadow.

(** X8: After any sequence of calls on a constructed object, the register in
    memory is the byte of the most recent transmit, whatever the host
    answered to it; if nothing was transmitted yet it is still the
    constructor's 0x02.  No call changes the register without putting it
    on the bus afterwards. *)
Theorem register_is_last_transmitted (host : Host) (cs : list Call) :
  exists w',
    run_calls host cs (mkWorld Adafruit_VEML6070_new []) = Some (tt, w')
    /\ (last_transmitted (log w') = Some [_commandRegister (self w')]
        \/ (last_transmitted (log w') = None
            /\ _commandRegister (self w') = 0x02)).
Proof.
  apply run_calls_shadow. right. split; reflexivity.
Qed.

(** ** Errors and trace lines *)

Section Tracing.

Variable host : Host.

Lemma balanced_app (l l' : list Event) :
  balanced l -> balanced l' -> balanced (l ++ l').
Proof.
  unfold balanced. intros H H'. rewrite !filter_app, !length_app. lia.
Qed.

Lemma balanced_sleeps (n : nat) : balanced (repeat (EvOS_Sleep 63) n).
Proof.
  unfold balanced. induction n as [| n IH]; [reflexivity | exact IH].
Qed.

Lemma writeCommand_balanced (w : World) :
  exists evs,
    writeCommand host w = Some (tt, mkWorld (self w) (log w ++ evs))
    /\ balanced evs.
Proof.
  unfold writeCommand, bind, get_self, I2C_Transmit. cbn [self log].
  fold (write_answer host w).
  destruct (is_error (write_answer host w)) eqn:Herr.
  - unfold Trace, emit. cbn [self log]. rewrite <- app_assoc.
    eexists. split; [reflexivity |].
    unfold balanced. cbn. rewrite Herr. reflexivity.
  - unfold ret. eexists. split; [reflexivity |].
    unfold balanced. cbn. rewrite Herr. reflexivity.
Qed.

Lemma clearAck_balanced (w : World) :
  exists b evs,
    clearAck host w = Some (b, mkWorld (self w) (log w ++ evs))
    /\ balanced evs.
Proof.
  unfold clearAck, bind, get_self, I2C_Receive. cbn [self log].
  fold (ara_answer host w).
  destruct (is_error (rx_error (ara_answer host w))) eqn:Herr.
  - unfold Trace, emit, ret. cbn [self log]. rewrite <- app_assoc.
    do 2 eexists. split; [reflexivity |].
    unfold balanced. cbn. rewrite Herr. reflexivity.
  - unfold ret. do 2 eexists. split; [reflexivity |].
    unfold balanced. cbn. rewrite Herr. reflexivity.
Qed.

Lemma readUV_balanced (w : World) :
  exists v evs,
    readUV host w = Some (v, mkWorld (self w) (log w ++ evs))
    /\ balanced evs.
Proof.
  unfold readUV, bind. rewrite waitForNext_run.
  unfold get_self, I2C_Receive. cbn [self log].
  fold (waited w). fold (high_answer host w). fold (high_event host w).
  destruct (is_error (rx_error (high_answer host w))) eqn:Hhigh.
  - unfold Trace, emit, ret. cbn [self log]. unfold waited.
    rewrite <- !app_assoc.
    do 2 eexists. split; [reflexivity |].
    apply balanced_app; [apply balanced_sleeps |].
    unfold balanced. cbn. rewrite Hhigh. reflexivity.
  - cbn [self log]. fold (low_answer host w). fold (low_event host w).
    destruct (is_error (rx_error (low_answer host w))) eqn:Hlow.
    + unfold Trace, emit, ret. cbn [self log]. unfold waited.
      rewrite <- !app_assoc.
      do 2 eexists. split; [reflexivity |].
      apply balanced_app; [apply balanced_sleeps |].
      unfold balanced. cbn. rewrite Hhigh, Hlow. reflexivity.
    + unfold ret, waited. rewrite <- !app_assoc.
      do 2 eexists. split; [reflexivity |].
      apply balanced_app; [apply balanced_sleeps |].
      unfold balanced. cbn. rewrite Hhigh, Hlow. reflexivity.
Qed.

Lemma clearAck_then_writeCommand_balanced (w : World) :
  exists evs,
    (clearAck host ;; writeCommand host) w
    = Some (tt, mkWorld (self w) (log w ++ evs))
    /\ balanced evs.
Proof.
  destruct (clearAck_balanced w) as [b [e1 [Hclear Hb1]]].
  match type of Hclear with
  | _ = Some (_, ?w1) => destruct (writeCommand_balanced w1) as [e2 [Hwrite Hb2]]
  end.
  unfold bind. rewrite Hclear, Hwrite. cbn [self log].
  exists (e1 ++ e2). rewrite <- app_assoc.
  split; [reflexivity | apply balanced_app; assumption].
Qed.

Lemma run_call_balanced (c : Call) (w : World) :
  exists w' evs,
    run_call host c w = Some (tt, w')
    /\ log w' = log w ++ evs
    /\ balanced evs.
Proof.
  destruct c as [i2c itime | state level | | | | state |]; cbn [run_call].
  - set (d' := mkDriver (Some i2c) (mkConfig (Some I2C_FREQ_100K))
                        (CommandRegister.set_IT (_commandRegister (self w))
                                                (itime_code itime))).
    set (w1 := mkWorld d' (log w ++ [EvI2C_Init (Some i2c)
                                                (mkConfig (Some I2C_FREQ_100K))])).
    change (begin host i2c itime w) with ((clearAck host ;; writeCommand host) w1).
    destruct (clearAck_then_writeCommand_balanced w1) as [evs [Hrun Hbal]].
    rewrite Hrun. do 2 eexists. split; [reflexivity |]. cbn [self log].
    subst w1. cbn [log]. rewrite <- app_assoc.
    split; [reflexivity |].
    apply (balanced_app [_]); [reflexivity | exact Hbal].
  - set (d' := mkDriver (_i2c (self w)) (_i2cConfig (self w))
                        (CommandRegister.set_ACK_THD
                           (CommandRegister.set_ACK (_commandRegister (self w))
                                                    (Z.b2z state))
                           (Z.b2z level))).
    change (setInterrupt host state level w)
      with ((clearAck host ;; writeCommand host) (mkWorld d' (log w))).
    destruct (clearAck_then_writeCommand_balanced (mkWorld d' (log w)))
      as [evs [Hrun Hbal]].
    rewrite Hrun. do 2 eexists. split; [reflexivity |]. cbn [self log].
    split; [reflexivity | exact Hbal].
  - destruct (clearAck_balanced w) as [b [evs [Hrun Hbal]]].
    unfold bind. rewrite Hrun. unfold ret.
    do 2 eexists. split; [reflexivity |]. split; [reflexivity | exact Hbal].
  - destruct (readUV_balanced w) as [v [evs [Hrun Hbal]]].
    unfold bind. rewrite Hrun. unfold ret.
    do 2 eexists. split; [reflexivity |]. split; [reflexivity | exact Hbal].
  - rewrite waitForNext_run.
    do 2 eexists. split; [reflexivity |]. split; [reflexivity |].
    apply balanced_sleeps.
  - set (d' := mkDriver (_i2c (self w)) (_i2cConfig (self w))
                        (CommandRegister.set_SD (_commandRegister (self w))
                                                (Z.b2z state))).
    change (sleep host state w) with (writeCommand host (mkWorld d' (log w))).
    destruct (writeCommand_balanced (mkWorld d' (log w))) as [evs [Hrun Hbal]].
    rewrite Hrun. do 2 eexists. split; [reflexivity |]. split; [reflexivity | exact Hbal].
  - destruct (writeCommand_balanced w) as [evs [Hrun Hbal]].
    rewrite Hrun. do 2 eexists. split; [reflexivity |]. split; [reflexivity | exact Hbal].
Qed.

End Tracing.

(** X9: Over any sequence of calls from any state, the driver writes exactly
    one trace line for each bus transaction the host answered with an
    error, and none otherwise: the host calls it adds hold as many trace
    lines as failed transactions.  In particular a host that never fails
    is never traced. *)
Theorem one_trace_per_error (host : Host) (cs : list Call) (w : World) :
  exists w' evs,
    run_calls host cs w = Some (tt, w')
    /\ log w' = log w ++ evs
    /\ List.length (filter is_trace evs) = List.length (filter reports_error evs).
Proof.
  revert w. induction cs as [| c cs IH]; intros w.
  - exists w, []. split; [reflexivity |]. split; [symmetry; apply app_nil_r | reflexivity].
  - destruct (run_call_balanced host c w) as [w1 [e1 [Hrun [Hlog1 Hb1]]]].
    destruct (IH w1) as [w' [e2 [Hrest [Hlog2 Hb2]]]].
    exists w', (e1 ++ e2). cbn [run_calls]. unfold bind. rewrite Hrun.
    split; [exact Hrest |].
    split; [rewrite Hlog2, Hlog1; symmetry; apply app_assoc |].
    apply (balanced_app e1 e2); assumption.
Qed.

(** ** The integration time between calls *)

Section IntegrationTime.

Variable host : Host.

(** Only [begin] writes the IT field. *)
Lemma run_call_keeps_IT (c : Call) (w : World) :
  is_begin c = false ->
  exists w',
    run_call host c w = Some (tt, w')
    /\ CommandRegister.IT (_commandRegister (self w'))
       = CommandRegister.IT (_commandRegister (self w)).
Proof.
  destruct c as [i2c itime | state level | | | | state |]; cbn [is_begin run_call];
    intros Hc; try discriminate Hc.
  - destruct (setInterrupt_run host state level w) as [evs [rx [tx [Hrun _]]]].
    eexists. split; [exact Hrun |]. cbn [self _commandRegister].
    unfold CommandRegister.IT, CommandRegister.set_ACK_THD, CommandRegister.set_ACK.
    rewrite !CommandRegisterFacts.get_set_other by lia. reflexivity.
  - destruct (clearAck_run host w) as [tr [Hrun _]].
    unfold bind. rewrite Hrun. unfold ret. eexists. split; reflexivity.
  - destruct (readUV_run host w) as [v [tr [Hrun _]]].
    unfold bind. rewrite Hrun. unfold ret. eexists. split; reflexivity.
  - rewrite waitForNext_run. eexists. split; reflexivity.
  - destruct (sleep_run host state w) as [tx [tr [Hrun _]]].
    eexists. split; [exact Hrun |]. cbn [self _commandRegister].
    unfold CommandRegister.IT, CommandRegister.set_SD.
    rewrite CommandRegisterFacts.get_set_other by lia. reflexivity.
  - destruct (writeCommand_run host w) as [tr [Hrun _]].
    eexists. split; [exact Hrun | reflexivity].
Qed.

Lemma run_calls_keep_IT (cs : list Call) :
  forallb (fun c => negb (is_begin c)) cs = true ->
  forall w,
    exists w',
      run_calls host cs w = Some (tt, w')
      /\ CommandRegister.IT (_commandRegister (self w'))
         = CommandRegister.IT (_commandRegister (self w)).
Proof.
  induction cs as [| c cs IH]; intros Hcs w.
  - exists w. split; reflexivity.
  - cbn [forallb] in Hcs. apply andb_true_iff in Hcs. destruct Hcs as [Hc Hcs].
    apply negb_true_iff in Hc.
    destruct (run_call_keeps_IT c w Hc) as [w1 [Hrun HIT1]].
    destruct (IH Hcs w1) as [w' [Hrest HIT]].
    exists w'. cbn [run_calls]. unfold bind. rewrite Hrun.
    split; [exact Hrest | congruence].
Qed.

End IntegrationTime.

(** [readUV] does all its sleeping before its first receive: the log
    grows by the sleeps of the wait, then the receive from the high
    address, then events none of which is a sleep. *)
Lemma readUV_waits_first (host : Host) (w : World) :
  exists v answer tr,
    readUV host w
    = Some (v, mkWorld (self w)
                 (log w
                  ++ repeat (EvOS_Sleep 63) (sleep_count (_commandRegister (self w)))
                  ++ EvI2C_Receive (_i2c (self w)) VEML6070_ADDR_H 1
                       I2C_DEFAULT_TIME_OUT answer
                  :: tr))
    /\ filter is_sleep tr = [].
Proof.
  unfold readUV, bind. rewrite waitForNext_run.
  unfold get_self, I2C_Receive. cbn [self log].
  fold (waited w). fold (high_answer host w). fold (high_event host w).
  destruct (is_error (rx_error (high_answer host w))).
  - unfold Trace, emit, ret. cbn [self log]. unfold waited, high_event.
    rewrite <- !app_assoc. cbn [app].
    do 3 eexists. split; reflexivity.
  - cbn [self log]. fold (low_answer host w). fold (low_event host w).
    destruct (is_error (rx_error (low_answer host w))).
    + unfold Trace, emit, ret. cbn [self log]. unfold waited, high_event, low_event.
      rewrite <- !app_assoc. cbn [app].
      do 3 eexists. split; reflexivity.
    + unfold ret, waited, high_event, low_event.
      rewrite <- !app_assoc. cbn [app].
      do 3 eexists. split; reflexivity.
Qed.

(** X10: The integration time given to [begin] lasts until the next [begin]:
    after [begin(i2c, itime)] and any further calls other than [begin],
    the IT field still holds [itime]; [waitForNext] then sleeps 1, 2, 4
    or 8 times for Half, One, Two, Four, and so does [readUV], which
    makes exactly that many sleeps of 63, all of them before its receive
    from the high address. *)
Theorem integration_time_lasts
        (host : Host) (i2c : I2C_ID_t) (itime : veml6070_integrationtime_t)
        (cs : list Call) (w : World) :
  forallb (fun c => negb (is_begin c)) cs = true ->
  exists w1,
    run_calls host (CallBegin i2c itime :: cs) w = Some (tt, w1)
    /\ CommandRegister.IT (_commandRegister (self w1)) = itime_code itime
    /\ waitForNext w1
       = Some (tt, mkWorld (self w1)
                     (log w1 ++ repeat (EvOS_Sleep 63) (multiplier itime)))
    /\ exists v answer tr,
         readUV host w1
         = Some (v, mkWorld (self w1)
                      (log w1
                       ++ repeat (EvOS_Sleep 63) (multiplier itime)
                       ++ EvI2C_Receive (_i2c (self w1)) VEML6070_ADDR_H 1
                            I2C_DEFAULT_TIME_OUT answer
                       :: tr))
         /\ filter is_sleep tr = [].
Proof.
  intros Hcs.
  destruct (begin_run host i2c itime w) as [evs [rx [tx [Hbegin _]]]].
  match type of Hbegin with
  | _ = Some (tt, ?w0) =>
      destruct (run_calls_keep_IT host cs Hcs w0) as [w1 [Hrest HIT]]
  end.
  cbn [self _commandRegister] in HIT. rewrite FieldFacts.IT_set_IT in HIT.
  exists w1. cbn [run_calls run_call]. unfold bind. rewrite Hbegin.
  split; [exact Hrest |]. split; [exact HIT |].
  split.
  - rewrite waitForNext_run, (sleep_count_multiplier _ itime HIT). reflexivity.
  - destruct (readUV_waits_first host w1) as [v [answer [tr [Hread Hquiet]]]].
    rewrite (sleep_count_multiplier _ itime HIT) in Hread.
    exists v, answer, tr. split; [exact Hread | exact Hquiet].
Qed.

Lemma integration_time_lasts_witness :
  exists w1,
    run_calls (scripted_host (rx_ok 1) (rx_ok 2) (rx_fail 4) I2C_ERROR_NONE)
              [CallBegin 1 VEML6070_2_T; CallSetInterrupt true false;
               CallSleep false; CallReadUV]
              (mkWorld Adafruit_VEML6070_new [])
    = Some (tt, w1)
    /\ CommandRegister.IT (_commandRegister (self w1)) = itime_code VEML6070_2_T
    /\ waitForNext w1
       = Some (tt, mkWorld (self w1)
                     (log w1 ++ repeat (EvOS_Sleep 63) (multiplier VEML6070_2_T)))
    /\ exists v answer tr,
         readUV (scripted_host (rx_ok 1) (rx_ok 2) (rx_fail 4) I2C_ERROR_NONE) w1
         = Some (v, mkWorld (self w1)
                      (log w1
                       ++ repeat (EvOS_Sleep 63) (multiplier VEML6070_2_T)
                       ++ EvI2C_Receive (_i2c (self w1)) VEML6070_ADDR_H 1
                            I2C_DEFAULT_TIME_OUT answer
                       :: tr))
         /\ filter is_sleep tr = [].
Proof.
  apply (integration_time_lasts
           (scripted_host (rx_ok 1) (rx_ok 2) (rx_fail 4) I2C_ERROR_NONE)
           1 VEML6070_2_T [CallSetInterrupt true false; CallSleep false; CallReadUV]
           (mkWorld Adafruit_VEML6070_new [])).
  reflexivity.
Defined.

(** ** The register as an encoding *)

Section Encoding.

Variable host : Host.

(** No call sets bit 6 or bit 7. *)
Lemma run_call_below_64 (c : Call) (w w' : World) :
  0 <= _commandRegister (self w) < 64 ->
  run_call host c w = Some (tt, w') ->
  0 <= _commandRegister (self w') < 64.
Proof.
  intros Hreg. change 64 with (2 ^ 6) in *.
  destruct c as [i2c itime | state level | | | | state |]; cbn [run_call].
  - destruct (begin_run host i2c itime w) as [evs [rx [tx [Hrun _]]]].
    rewrite Hrun. intros [= <-]. cbn [self _commandRegister].
    apply FieldAlgebra.set_bits_below; lia.
  - destruct (setInterrupt_run host state level w) as [evs [rx [tx [Hrun _]]]].
    rewrite Hrun. intros [= <-]. cbn [self _commandRegister].
    repeat apply FieldAlgebra.set_bits_below; lia.
  - destruct (clearAck_run host w) as [tr [Hrun _]].
    unfold bind. rewrite Hrun. intros [= <-]. exact Hreg.
  - destruct (readUV_run host w) as [v [tr [Hrun _]]].
    unfold bind. rewrite Hrun. intros [= <-]. exact Hreg.
  - rewrite waitForNext_run. intros [= <-]. exact Hreg.
  - destruct (sleep_run host state w) as [tx [tr [Hrun _]]].
    rewrite Hrun. intros [= <-]. cbn [self _commandRegister].
    apply FieldAlgebra.set_bits_below; lia.
  - destruct (writeCommand_run host w) as [tr [Hrun _]].
    rewrite Hrun. intros [= <-]. exact Hreg.
Qed.

Lemma run_calls_below_64 (cs : list Call) :
  forall w w',
    0 <= _commandRegister (self w) < 64 ->
    run_calls host cs w = Some (tt, w') ->
    0 <= _commandRegister (self w') < 64.
Proof.
  induction cs as [| c cs IH]; intros w w' Hreg.
  - intros [= <-]. exact Hreg.
  - cbn [run_calls]. unfold bind.
    destruct (run_call host c w) as [[[] w1] |] eqn:Hrun; [| discriminate].
    apply IH. exact (run_call_below_64 c w w1 Hreg Hrun).
Qed.

End Encoding.

(** X11: After any sequence of calls on a constructed object the register,
    and so every byte transmitted from it, is exactly the encoding of its
    four fields around the set reserved bit: SD at bit 0, the constant 1
    at bit 1, IT at bits 2-3, ACK_THD at bit 4, ACK at bit 5, and bits 6
    and 7 clear. *)
Theorem register_encodes_fields (host : Host) (cs : list Call) :
  exists w',
    run_calls host cs (mkWorld Adafruit_VEML6070_new []) = Some (tt, w')
    /\ 2 <= _commandRegister (self w') < 64
    /\ _commandRegister (self w')
       = CommandRegister.SD (_commandRegister (self w')) + 2
         + 4 * CommandRegister.IT (_commandRegister (self w'))
         + 16 * CommandRegister.ACK_THD (_commandRegister (self w'))
         + 32 * CommandRegister.ACK (_commandRegister (self w')).
Proof.
  destruct (run_calls_reserved host cs (mkWorld Adafruit_VEML6070_new []))
    as [w' [Hrun [Hbit _]]]; [reflexivity | constructor |].
  assert (Hrange : 0 <= _commandRegister (self w') < 64).
  { apply (run_calls_below_64 host cs (mkWorld Adafruit_VEML6070_new []) w');
      [cbn; lia | exact Hrun]. }
  pose proof (FieldAlgebra.encoded_by_fields _ Hrange Hbit) as Henc.
  exists w'. split; [exact Hrun |]. split; [| exact Henc].
  pose proof (CommandRegisterFacts.get_bits_range (_commandRegister (self w')) 0 1
                ltac:(lia)) as HSD.
  pose proof (IT_cases (_commandRegister (self w'))) as HIT.
  pose proof (CommandRegisterFacts.get_bits_range (_commandRegister (self w')) 4 1
                ltac:(lia)) as HTHD.
  pose proof (CommandRegisterFacts.get_bits_range (_commandRegister (self w')) 5 1
                ltac:(lia)) as HACK.
  unfold CommandRegister.SD, CommandRegister.ACK_THD, CommandRegister.ACK in Henc.
  lia.
Qed.

(** ** Reads, retries and the sleep round trip *)

Lemma sleeps_are_quiet (n : nat) :
  filter is_bus_transaction (repeat (EvOS_Sleep 63) n) = [].
Proof. induction n as [| n IH]; [reflexivity | exact IH]. Qed.

(** X12: [clearAck] and [readUV] only read: each returns with the object as
    it was and without a transmit among its host calls, and the value of
    [readUV] fits sixteen bits whatever the host stored in the buffers. *)
Theorem reads_do_not_write (host : Host) (w : World) :
  (exists b evs,
      clearAck host w = Some (b, mkWorld (self w) (log w ++ evs))
      /\ last_transmitted evs = None)
  /\ (exists v evs,
         readUV host w = Some (v, mkWorld (self w) (log w ++ evs))
         /\ last_transmitted evs = None
         /\ 0 <= v <= 0xFFFF).
Proof.
  split.
  - destruct (clearAck_run host w) as [tr [Hrun Hquiet]].
    do 2 eexists. split; [exact Hrun |].
    rewrite <- last_transmitted_bus_transactions. cbn. rewrite Hquiet. reflexivity.
  - assert (Hno : forall tr,
               filter is_bus_transaction tr
               = (if is_error (rx_error (high_answer host w))
                  then [] else [low_event host w]) ->
               last_transmitted
                 (repeat (EvOS_Sleep 63) (sleep_count (_commandRegister (self w)))
                  ++ high_event host w :: tr) = None).
    { intros tr Hbus. rewrite <- last_transmitted_bus_transactions.
      rewrite filter_app, sleeps_are_quiet. cbn. rewrite Hbus.
      destruct (is_error (rx_error (high_answer host w))); reflexivity. }
    assert (Hfail : 0 <= readUV_failure <= 0xFFFF)
      by (rewrite readUV_failure_value; lia).
    destruct (is_error (rx_error (high_answer host w))) eqn:Hhigh.
    + pose proof (proj1 (is_error_true _) Hhigh) as Hbad.
      destruct (readUV_run_high_failed host w Hbad) as [t [Hrun Hquiet]].
      do 2 eexists. split; [rewrite Hrun; unfold waited; rewrite <- app_assoc;
                            reflexivity |].
      split; [| exact Hfail].
      apply Hno. cbn. rewrite Hquiet. reflexivity.
    + assert (Hok : rx_error (high_answer host w) = I2C_ERROR_NONE)
        by (destruct (rx_error (high_answer host w)); [reflexivity | discriminate]).
      destruct (is_error (rx_error (low_answer host w))) eqn:Hlow.
      * apply is_error_true in Hlow.
        destruct (readUV_run_low_failed host w Hok Hlow) as [t [Hrun Hquiet]].
        do 2 eexists. split; [rewrite Hrun; unfold waited; rewrite <- app_assoc;
                              reflexivity |].
        split; [| exact Hfail].
        apply Hno. cbn. rewrite Hquiet. reflexivity.
      * assert (Hok' : rx_error (low_answer host w) = I2C_ERROR_NONE)
          by (destruct (rx_error (low_answer host w)); [reflexivity | discriminate]).
        do 2 eexists.
        split; [rewrite (readUV_run_ok host w Hok Hok'); unfold waited;
                rewrite <- app_assoc; reflexivity |].
        split; [apply Hno; reflexivity |].
        unfold uint16.
        pose proof (Z.mod_pos_bound
                      (Z.lor (Z.shiftl (buffer_after 0 (high_answer host w)) 8)
                             (buffer_after 0 (low_answer host w)))
                      65536 ltac:(lia)).
        lia.
Qed.

(** X13: No call retries and no failure cuts a configuration call short:
    whatever the host answers, [begin] and [setInterrupt] make two bus
    transactions, [sleep], [clearAck] and [writeCommand] one,
    [waitForNext] none, and [readUV] two, or one when its first receive
    failed. *)
Theorem bus_transactions_per_call (host : Host) (c : Call) (w : World) :
  exists w' evs,
    run_call host c w = Some (tt, w')
    /\ log w' = log w ++ evs
    /\ List.length (filter is_bus_transaction evs)
       = match c with
         | CallBegin _ _ => 2
         | CallSetInterrupt _ _ => 2
         | CallClearAck => 1
         | CallReadUV =>
             if is_error (rx_error (high_answer host w)) then 1 else 2
         | CallWaitForNext => 0
         | CallSleep _ => 1
         | CallWriteCommand => 1
         end%nat.
Proof.
  destruct c as [i2c itime | state level | | | | state |]; cbn [run_call].
  - destruct (begin_run host i2c itime w) as [evs [rx [tx [Hrun Hbus]]]].
    do 2 eexists. split; [exact Hrun |]. cbn [self log].
    split; [reflexivity |]. cbn [filter is_bus_transaction]. rewrite Hbus. reflexivity.
  - destruct (setInterrupt_run host state level w) as [evs [rx [tx [Hrun Hbus]]]].
    do 2 eexists. split; [exact Hrun |]. cbn [self log].
    split; [reflexivity |]. rewrite Hbus. reflexivity.
  - destruct (clearAck_run host w) as [tr [Hrun Hquiet]].
    unfold bind. rewrite Hrun. unfold ret.
    do 2 eexists. split; [reflexivity |]. cbn [self log].
    split; [reflexivity |]. cbn. rewrite Hquiet. reflexivity.
  - destruct (readUV_run host w) as [v [tr [Hrun Hbus]]].
    unfold bind. rewrite Hrun. unfold ret.
    do 2 eexists. split; [reflexivity |]. cbn [self log].
    split; [unfold waited; rewrite <- app_assoc; reflexivity |].
    rewrite filter_app, sleeps_are_quiet. cbn. rewrite Hbus.
    destruct (is_error (rx_error (high_answer host w))); reflexivity.
  - rewrite waitForNext_run.
    do 2 eexists. split; [reflexivity |]. cbn [self log].
    split; [reflexivity |]. rewrite sleeps_are_quiet. reflexivity.
  - destruct (sleep_run host state w) as [tx [tr [Hrun Hquiet]]].
    do 2 eexists. split; [exact Hrun |]. cbn [self log].
    split; [reflexivity |]. cbn. rewrite Hquiet. reflexivity.
  - destruct (writeCommand_run host w) as [tr [Hrun Hquiet]].
    do 2 eexists. split; [exact Hrun |]. cbn [self log].
    split; [reflexivity |]. cbn. rewrite Hquiet. reflexivity.
Qed.

(** X14: Entering sleep and leaving it again, on an object that was awake,
    gives back the object exactly: [sleep(true)] sets SD and nothing
    else, and [sleep(false)] undoes it. *)
Theorem sleep_wake_restores (host : Host) (w : World) :
  CommandRegister.SD (_commandRegister (self w)) = 0 ->
  exists w1 w2,
    sleep host true w = Some (tt, w1)
    /\ CommandRegister.SD (_commandRegister (self w1)) = 1
    /\ sleep host false w1 = Some (tt, w2)
    /\ self w2 = self w.
Proof.
  intros Hawake.
  destruct (sleep_run host true w) as [x1 [t1 [Hrun1 _]]].
  match type of Hrun1 with
  | _ = Some (tt, ?w1) => destruct (sleep_run host false w1) as [x2 [t2 [Hrun2 _]]]
  end.
  do 2 eexists. split; [exact Hrun1 |].
  cbn [self _i2c _i2cConfig _commandRegister].
  split.
  - unfold CommandRegister.SD, CommandRegister.set_SD.
    rewrite CommandRegisterFacts.get_set_same by lia. reflexivity.
  - split; [exact Hrun2 |]. cbn [self _i2c _i2cConfig _commandRegister].
    unfold CommandRegister.set_SD.
    rewrite FieldAlgebra.set_bits_overwrite by lia.
    pose proof (FieldAlgebra.set_bits_get_bits (_commandRegister (self w)) 0 1
                  ltac:(lia) ltac:(lia)) as Hsame.
    fold (CommandRegister.SD (_commandRegister (self w))) in Hsame.
    rewrite Hawake in Hsame. change (Z.b2z false) with 0. rewrite Hsame.
    destruct w as [[i c r] l]. reflexivity.
Qed.

Lemma sleep_wake_restores_witness :
  exists w1 w2,
    sleep (scripted_host (rx_ok 0) (rx_ok 0) (rx_ok 0) (I2C_ERROR_CODE 2)) true started
    = Some (tt, w1)
    /\ CommandRegister.SD (_commandRegister (self w1)) = 1
    /\ sleep (scripted_host (rx_ok 0) (rx_ok 0) (rx_ok 0) (I2C_ERROR_CODE 2)) false w1
       = Some (tt, w2)
    /\ self w2 = self started.
Proof.
  apply (sleep_wake_restores
           (scripted_host (rx_ok 0) (rx_ok 0) (rx_ok 0) (I2C_ERROR_CODE 2)) started).
  reflexivity.
Defined.
